(** * AICodeReviewer: the analysis pipeline of [server.js]

    A shallow embedding of the Express server of the repository: the
    multer upload gate, [deleteTempFile], the retrying Gemini client
    [callGeminiApi], the [POST /api/analyze] route and the report routes,
    followed by the properties of the specification that concern them.

    JavaScript values are a small inductive type, effects (fetch, timers,
    console, the uploads directory, the reviews table) are threaded through
    an explicit state, and exceptions are the [Throw] completion of a
    state-and-error monad, so that [try]/[catch]/[finally] read as in the
    source. *)

From Stdlib Require Import ZArith String Ascii List Bool Lia PrimFloat DecimalString.
From stdpp Require Import gmap strings list fin_maps.

#[local] Set Warnings "-register-all,-inexact-float".

Local Open Scope string_scope.
Local Open Scope list_scope.
Local Open Scope Z_scope.

(** ** JavaScript values *)

Module Js.

(** The values that [JSON.parse] produces, plus [undefined], which
    property access and optional chaining produce. Numbers are binary64. *)
Inductive jsval : Type :=
| JUndefined
| JNull
| JBool (b : bool)
| JNum (x : float)
| JStr (s : string)
| JArr (items : list jsval)
| JObj (fields : list (string * jsval)).

(** [!v] is [negb (truthy v)]: [undefined], [null], [false], [0], [-0], [NaN]
    and the empty string are falsy, everything else (every array and every
    object included) is truthy. *)
Definition truthy (v : jsval) : bool :=
  match v with
  | JUndefined | JNull => false
  | JBool b => b
  | JNum x => negb (PrimFloat.eqb x 0%float || negb (PrimFloat.eqb x x))
  | JStr EmptyString => false
  | JStr (String _ _) => true
  | JArr _ | JObj _ => true
  end.

Fixpoint assoc (k : string) (fields : list (string * jsval)) : option jsval :=
  match fields with
  | [] => None
  | (k', v) :: rest => if String.eqb k k' then Some v else assoc k rest
  end.

(** [v.k] for a [v] that is neither [null] nor [undefined], and a name [k]
    that is on no built-in prototype (true of every name the server reads:
    candidates, content, parts, text, error, message). *)
Definition member (k : string) (v : jsval) : jsval :=
  match v with
  | JObj fields => default JUndefined (assoc k fields)
  | _ => JUndefined
  end.

(** [v[0]] for a [v] that is neither [null] nor [undefined]. *)
Definition index0 (v : jsval) : jsval :=
  match v with
  | JArr (x :: _) => x
  | JObj fields => default JUndefined (assoc "0" fields)
  | JStr (String c _) => JStr (String c EmptyString)
  | _ => JUndefined
  end.

(** [v?.k] and [v?.[0]]: short-circuit to [undefined] on [null] and
    [undefined]. *)
Definition nullish (v : jsval) : bool :=
  match v with
  | JUndefined | JNull => true
  | _ => false
  end.

Definition opt_chain (f : jsval -> jsval) (v : jsval) : jsval :=
  if nullish v then JUndefined else f v.

(** [a || b] *)
Definition or_else (a b : jsval) : jsval := if truthy a then a else b.

(** What a [throw] carries. [Error] is [new Error(message)];
    [GeminiApiError status detail] is the one error of the server built from a
    template, [new Error(`Gemini API Error: ${status} ${detail}`)];
    [TypeError] is raised by the language itself (a property read on [null]);
    [Foreign] is an error raised by the platform: a rejected [fetch], a
    rejected [response.json()], [fs] and the database driver. *)
Inductive js_error : Type :=
| Error (message : string)
| GeminiApiError (status : Z) (detail : jsval)
| TypeError (message : string)
| Foreign (message : string).

End Js.
Export Js.

(** ** The world the server runs in *)

(** [response.json()] either resolves to a value or rejects. *)
Inductive json_outcome : Type :=
| JsonValue (v : jsval)
| JsonReject (message : string).

Record response : Type := {
  status : Z;
  statusText : string;
  json : json_outcome
}.

(** [response.ok] of the Fetch API: the status is in the range 200-299. *)
Definition ok (r : response) : bool :=
  (200 <=? status r) && (status r <=? 299).

(** [await fetch(...)] either rejects (a network-level fault) or resolves to a
    response, whatever its status. *)
Inductive fetch_outcome : Type :=
| FetchFault (message : string)
| FetchResponse (r : response).

(** A row of the table [reviews]. *)
Record review : Type := {
  id : Z;
  filename : string;
  review_prompt : string;
  report : jsval;
  created_at : string
}.

Inductive log_line : Type :=
| LogReceived (originalname mimetype : string)
| LogAttemptStatus (attempt : nat) (status : Z) (errorBody : jsval)
| LogAttemptError (attempt : nat) (err : js_error)
| LogUnlinkError (message : string)
| LogAnalysisError (err : js_error)
| LogReportError (id : Z) (err : js_error).

(** The effects of the server on its surroundings, in the order they occur. *)
Inductive event : Type :=
| EvLog (line : log_line)
| EvFetch (payload : jsval)
| EvSleep (ms : Z)
| EvReadFile (path : string)
| EvUnlink (path : string)
| EvQuery (sql : string).

(** What the server does not control. [endpoint n] is the outcome of the
    [n]-th [fetch] (counted from 0), [store_fault n] the failure of the [n]-th
    database query if it fails, [unlink_fault p] the error [fs.unlink] reports
    for path [p] if it fails, [clock n] the timestamp the store assigns during
    the [n]-th query. *)
Record env : Type := {
  GEMINI_API_KEY : option string;
  endpoint : nat -> fetch_outcome;
  store_fault : nat -> option string;
  unlink_fault : string -> option string;
  clock : nat -> string
}.

Record state : Type := {
  uploads : gmap string string;
  reviews : gmap Z review;
  next_id : Z;
  fetches : nat;
  queries : nat;
  trace : list event
}.

Definition emit (ev : event) (s : state) : state :=
  {| uploads := uploads s; reviews := reviews s; next_id := next_id s;
     fetches := fetches s; queries := queries s; trace := trace s ++ [ev] |}.

Definition count_fetch (s : state) : state :=
  {| uploads := uploads s; reviews := reviews s; next_id := next_id s;
     fetches := S (fetches s); queries := queries s; trace := trace s |}.

Definition count_query (s : state) : state :=
  {| uploads := uploads s; reviews := reviews s; next_id := next_id s;
     fetches := fetches s; queries := S (queries s); trace := trace s |}.

Definition set_uploads (u : gmap string string) (s : state) : state :=
  {| uploads := u; reviews := reviews s; next_id := next_id s;
     fetches := fetches s; queries := queries s; trace := trace s |}.

Definition set_reviews (r : gmap Z review) (n : Z) (s : state) : state :=
  {| uploads := uploads s; reviews := r; next_id := n;
     fetches := fetches s; queries := queries s; trace := trace s |}.

(** ** Computations that may throw *)

Inductive completion (A : Type) : Type :=
| Normal (a : A)
| Throw (e : js_error).
Arguments Normal {A} a.
Arguments Throw {A} e.

Definition M (A : Type) : Type := env -> state -> completion A * state.

Definition ret {A} (a : A) : M A := fun _ s => (Normal a, s).

Definition bind {A B} (m : M A) (k : A -> M B) : M B :=
  fun e s =>
    match m e s with
    | (Normal a, s') => k a e s'
    | (Throw err, s') => (Throw err, s')
    end.

Definition throw {A} (err : js_error) : M A := fun _ s => (Throw err, s).

(** [try { m } catch (err) { handler err }] *)
Definition try_catch {A} (m : M A) (handler : js_error -> M A) : M A :=
  fun e s =>
    match m e s with
    | (Normal a, s') => (Normal a, s')
    | (Throw err, s') => handler err e s'
    end.

(** [try { m } finally { fin }]: [fin] runs on both completions; if [fin]
    itself throws, its error replaces the completion of [m]. *)
Definition try_finally {A} (m : M A) (fin : M unit) : M A :=
  fun e s =>
    match m e s with
    | (c, s') =>
        match fin e s' with
        | (Normal _, s'') => (c, s'')
        | (Throw err, s'') => (Throw err, s'')
        end
    end.

(** A pure step that completes or throws. *)
Definition lift {A} (c : completion A) : M A := fun _ s => (c, s).

Definition ask : M env := fun e s => (Normal e, s).
Definition get : M state := fun _ s => (Normal s, s).
Definition modify (f : state -> state) : M unit := fun _ s => (Normal tt, f s).

Declare Scope js_scope.
Delimit Scope js_scope with js.
Notation "x <- m ;; k" := (bind m (fun x => k))
  (at level 100, m at next level, right associativity) : js_scope.
Notation "m ;;; k" := (bind m (fun _ => k))
  (at level 100, right associativity) : js_scope.
Local Open Scope js_scope.

Definition log (line : log_line) : M unit := modify (emit (EvLog line)).

(** [await new Promise(resolve => setTimeout(resolve, delay))] *)
Definition sleep (ms : Z) : M unit := modify (emit (EvSleep ms)).

(** [await fetch(url, { method: 'POST', ..., body: JSON.stringify(payload) })] *)
Definition fetch (payload : jsval) : M response :=
  fun e s =>
    let s' := count_fetch (emit (EvFetch payload) s) in
    match endpoint e (fetches s) with
    | FetchFault msg => (Throw (Foreign msg), s')
    | FetchResponse r => (Normal r, s')
    end.

(** [await response.json()] *)
Definition response_json (r : response) : M jsval :=
  match json r with
  | JsonValue v => ret v
  | JsonReject msg => throw (Foreign msg)
  end.

(** [await response.json().catch(() => ({}))] *)
Definition response_json_or_empty (r : response) : jsval :=
  match json r with
  | JsonValue v => v
  | JsonReject _ => JObj []
  end.

(** ** The Gemini client *)

Definition MAX_RETRIES : nat := 5.

(** [Math.pow(2, i) * 1000] *)
Definition backoff (i : nat) : Z := 2 ^ Z.of_nat i * 1000.

(** [result?.candidates?.[0]?.content?.parts?.[0]?.text] *)
Definition extract_report (result : jsval) : jsval :=
  opt_chain (member "text")
    (opt_chain index0
      (opt_chain (member "parts")
        (opt_chain (member "content")
          (opt_chain index0
            (opt_chain (member "candidates") result))))).

(** [ToString(v)] throws: a template literal converts what it interpolates
    to a string. For an object the conversion calls its [toString], then its
    [valueOf]; an object read from JSON that has a key "toString" hides the
    inherited method behind a value that cannot be called, and neither its
    [valueOf] nor the inherited one yields a primitive, so the conversion
    ends in a [TypeError]. Any other object becomes "[object Object]". An
    array joins the strings of its elements ([null] and [undefined] count as
    empty), so it throws when one of them does. *)
Fixpoint to_string_throws (v : jsval) : bool :=
  match v with
  | JObj fields =>
      match assoc "toString" fields with
      | Some _ => true
      | None => false
      end
  | JArr items =>
      (fix any (l : list jsval) : bool :=
         match l with
         | [] => false
         | x :: rest => (if nullish x then false else to_string_throws x) || any rest
         end) items
  | _ => false
  end.

(** [errorBody.error?.message || response.statusText] *)
Definition picked_detail (errorBody : jsval) (r : response) : jsval :=
  or_else (opt_chain (member "message") (member "error" errorBody))
          (JStr (statusText r)).

(** The detail the template literal of the error message interpolates. The
    read of [.error] is not optional and throws on [null]; the conversion of
    the detail to a string throws as [to_string_throws] says. *)
Definition error_detail (errorBody : jsval) (r : response) : completion jsval :=
  if nullish errorBody
  then Throw (TypeError "Cannot read properties of null (reading 'error')")
  else if to_string_throws (picked_detail errorBody r)
  then Throw (TypeError "Cannot convert object to primitive value")
  else Normal (picked_detail errorBody r).

(** How one iteration of the [for] loop ends when it does not throw. *)
Inductive loop_step : Type :=
| Next
| Return (report : jsval).

(** The [try] block of iteration [i]. *)
Definition attempt_try (i : nat) (payload : jsval) : M loop_step :=
  r <- fetch payload ;;
  if ok r then
    result <- response_json r ;;
    let report := extract_report result in
    if negb (truthy report)
    then throw (Error "Gemini API returned an empty or invalid response.")
    else ret (Return report)
  else
    let errorBody := response_json_or_empty r in
    log (LogAttemptStatus (i + 1) (status r) errorBody) ;;;
    if (500 <=? status r) && (i <? MAX_RETRIES - 1)%nat then
      sleep (backoff i) ;;;
      ret Next
    else
      detail <- lift (error_detail errorBody r) ;;
      throw (GeminiApiError (status r) detail).

(** The [catch (err)] block of iteration [i]. *)
Definition attempt_catch (i : nat) (err : js_error) : M loop_step :=
  log (LogAttemptError (i + 1) err) ;;;
  if (i =? MAX_RETRIES - 1)%nat then throw err
  else
    sleep (backoff i) ;;;
    ret Next.

Definition attempt (i : nat) (payload : jsval) : M loop_step :=
  try_catch (attempt_try i payload) (attempt_catch i).

(** [for (let i = 0; i < MAX_RETRIES; i++) { ... }] followed by the final
    [throw]. [retry_loop n i] runs the loop from index [i] when [n] iterations
    are left, that is [n = MAX_RETRIES - i]; the loop test [i < MAX_RETRIES]
    fails exactly when [n] is 0. *)
Fixpoint retry_loop (n i : nat) (payload : jsval) : M jsval :=
  match n with
  | O => throw (Error "Gemini API call failed after multiple retries.")
  | S n' =>
      step <- attempt i payload ;;
      match step with
      | Return report => ret report
      | Next => retry_loop n' (S i) payload
      end
  end.

(** [!GEMINI_API_KEY]: the variable is unset, or set to the empty string. *)
Definition key_missing (e : env) : bool :=
  match GEMINI_API_KEY e with
  | None | Some EmptyString => true
  | Some (String _ _) => false
  end.

Definition callGeminiApi (payload : jsval) : M jsval :=
  e <- ask ;;
  if key_missing e
  then throw (Error "GEMINI_API_KEY is not set in environment variables.")
  else retry_loop MAX_RETRIES 0 payload.

(** ** The upload gate *)

(** One file part of the multipart request, as multer sees it: the declared
    name and MIME type come first, the bytes (their number is [size]) are
    streamed afterwards; [content] is those bytes decoded as UTF-8. *)
Record candidate : Type := {
  originalname : string;
  mimetype : string;
  size : Z;
  content : string
}.

Definition allowedMimeTypes : list string :=
  [ "text/plain"; "text/javascript"; "application/javascript"; "text/x-python";
    "application/json"; "text/html"; "text/css"; "text/x-java-source"; "text/markdown";
    "text/x-c++src"; "text/x-csrc"; "text/x-csharp"; "text/x-go"; "text/x-ruby";
    "application/x-httpd-php"; "text/x-swift"; "text/x-kotlin"; "text/rust";
    "application/xml"; "text/xml"; "application/x-yaml"; "text/yaml";
    "application/x-sh"; "application/typescript"; "text/jsx"; "text/tsx";
    "application/octet-stream" ].

Definition allowedExtensions : list string :=
  [ ".txt"; ".js"; ".py"; ".json"; ".html"; ".css"; ".java"; ".md";
    ".cpp"; ".c"; ".cs"; ".go"; ".rb"; ".php"; ".swift"; ".kt"; ".rs";
    ".xml"; ".yaml"; ".sh"; ".ts"; ".jsx"; ".tsx" ].

(** [list.includes(x)] on strings *)
Definition includes (l : list string) (x : string) : bool :=
  existsb (String.eqb x) l.

(** ** Case conversion

    Strings are held as their UTF-8 bytes. The dot and the slash are single
    bytes there and occur in no longer sequence, so [path.extname] below
    reads and cuts at the same places as on the code units of JavaScript.
    [String.prototype.toLowerCase] works on code points: it is the default
    lower-case conversion of the Unicode standard without tailoring for a
    language, that is the simple mappings of UnicodeData.txt, the one
    unconditional special mapping of U+0130 and the Final_Sigma rule of
    SpecialCasing.txt. The tables are those of Unicode 14.0. *)

Module Unicode.

(** A decoded string: code points, and bytes that belong to no well-formed
    sequence (a string that came out of JavaScript has none). *)
Inductive scalar : Type :=
  | CodePoint (c : Z)
  | Stray (b : ascii).

Definition byte (b : ascii) : Z := Z.of_N (N_of_ascii b).

Definition of_byte (n : Z) : ascii := ascii_of_N (Z.to_N n).

Definition continuation (b : ascii) : bool :=
  (128 <=? byte b) && (byte b <=? 191).

(** Low six bits of a continuation byte. *)
Definition low6 (b : ascii) : Z := byte b - 128.

Fixpoint utf8_decode (s : string) : list scalar :=
  match s with
  | EmptyString => []
  | String b0 rest =>
      if byte b0 <? 128 then CodePoint (byte b0) :: utf8_decode rest
      else if byte b0 <? 192 then Stray b0 :: utf8_decode rest
      else if byte b0 <? 224 then
        match rest with
        | String b1 rest1 =>
            let c := (byte b0 - 192) * 64 + low6 b1 in
            if continuation b1 && (128 <=? c)
            then CodePoint c :: utf8_decode rest1
            else Stray b0 :: utf8_decode rest
        | _ => Stray b0 :: utf8_decode rest
        end
      else if byte b0 <? 240 then
        match rest with
        | String b1 (String b2 rest2) =>
            let c := (byte b0 - 224) * 4096 + low6 b1 * 64 + low6 b2 in
            if continuation b1 && continuation b2 && (2048 <=? c)
               && negb ((55296 <=? c) && (c <=? 57343))
            then CodePoint c :: utf8_decode rest2
            else Stray b0 :: utf8_decode rest
        | _ => Stray b0 :: utf8_decode rest
        end
      else
        match rest with
        | String b1 (String b2 (String b3 rest3)) =>
            let c := (byte b0 - 240) * 262144 + low6 b1 * 4096 + low6 b2 * 64 + low6 b3 in
            if continuation b1 && continuation b2 && continuation b3
               && (65536 <=? c) && (c <=? 1114111)
            then CodePoint c :: utf8_decode rest3
            else Stray b0 :: utf8_decode rest
        | _ => Stray b0 :: utf8_decode rest
        end
  end.

Definition utf8_encode_scalar (x : scalar) : string :=
  match x with
  | Stray b => String b EmptyString
  | CodePoint c =>
      if c <? 128 then String (of_byte c) EmptyString
      else if c <? 2048 then
        String (of_byte (192 + c / 64)) (String (of_byte (128 + c mod 64)) EmptyString)
      else if c <? 65536 then
        String (of_byte (224 + c / 4096))
          (String (of_byte (128 + (c / 64) mod 64))
             (String (of_byte (128 + c mod 64)) EmptyString))
      else
        String (of_byte (240 + c / 262144))
          (String (of_byte (128 + (c / 4096) mod 64))
             (String (of_byte (128 + (c / 64) mod 64))
                (String (of_byte (128 + c mod 64)) EmptyString)))
  end.

Fixpoint utf8_encode (l : list scalar) : string :=
  match l with
  | [] => EmptyString
  | x :: rest => utf8_encode_scalar x +:+ utf8_encode rest
  end.

(** Simple lower-case mappings, as [(first, last, step, delta)]: every
    code point [first + k * step] up to [last] goes to itself plus
    [delta]. *)
Definition Lowercase_Mapping : list (Z * Z * Z * Z) :=
  [
    (65, 90, 1, 32); (192, 214, 1, 32); (216, 222, 1, 32); (256, 302, 2, 1); (306, 310, 2, 1);
    (313, 327, 2, 1); (330, 374, 2, 1); (376, 376, 1, (-121)); (377, 381, 2, 1);
    (385, 385, 1, 210); (386, 388, 2, 1); (390, 390, 1, 206); (391, 391, 1, 1);
    (393, 394, 1, 205); (395, 395, 1, 1); (398, 398, 1, 79); (399, 399, 1, 202);
    (400, 400, 1, 203); (401, 401, 1, 1); (403, 403, 1, 205); (404, 404, 1, 207);
    (406, 406, 1, 211); (407, 407, 1, 209); (408, 408, 1, 1); (412, 412, 1, 211);
    (413, 413, 1, 213); (415, 415, 1, 214); (416, 420, 2, 1); (422, 422, 1, 218);
    (423, 423, 1, 1); (425, 425, 1, 218); (428, 428, 1, 1); (430, 430, 1, 218);
    (431, 431, 1, 1); (433, 434, 1, 217); (435, 437, 2, 1); (439, 439, 1, 219);
    (440, 440, 1, 1); (444, 444, 1, 1); (452, 452, 1, 2); (453, 453, 1, 1); (455, 455, 1, 2);
    (456, 456, 1, 1); (458, 458, 1, 2); (459, 475, 2, 1); (478, 494, 2, 1); (497, 497, 1, 2);
    (498, 500, 2, 1); (502, 502, 1, (-97)); (503, 503, 1, (-56)); (504, 542, 2, 1);
    (544, 544, 1, (-130)); (546, 562, 2, 1); (570, 570, 1, 10795); (571, 571, 1, 1);
    (573, 573, 1, (-163)); (574, 574, 1, 10792); (577, 577, 1, 1); (579, 579, 1, (-195));
    (580, 580, 1, 69); (581, 581, 1, 71); (582, 590, 2, 1); (880, 882, 2, 1); (886, 886, 1, 1);
    (895, 895, 1, 116); (902, 902, 1, 38); (904, 906, 1, 37); (908, 908, 1, 64);
    (910, 911, 1, 63); (913, 929, 1, 32); (931, 939, 1, 32); (975, 975, 1, 8);
    (984, 1006, 2, 1); (1012, 1012, 1, (-60)); (1015, 1015, 1, 1); (1017, 1017, 1, (-7));
    (1018, 1018, 1, 1); (1021, 1023, 1, (-130)); (1024, 1039, 1, 80); (1040, 1071, 1, 32);
    (1120, 1152, 2, 1); (1162, 1214, 2, 1); (1216, 1216, 1, 15); (1217, 1229, 2, 1);
    (1232, 1326, 2, 1); (1329, 1366, 1, 48); (4256, 4293, 1, 7264); (4295, 4295, 1, 7264);
    (4301, 4301, 1, 7264); (5024, 5103, 1, 38864); (5104, 5109, 1, 8);
    (7312, 7354, 1, (-3008)); (7357, 7359, 1, (-3008)); (7680, 7828, 2, 1);
    (7838, 7838, 1, (-7615)); (7840, 7934, 2, 1); (7944, 7951, 1, (-8)); (7960, 7965, 1, (-8));
    (7976, 7983, 1, (-8)); (7992, 7999, 1, (-8)); (8008, 8013, 1, (-8)); (8025, 8031, 2, (-8));
    (8040, 8047, 1, (-8)); (8072, 8079, 1, (-8)); (8088, 8095, 1, (-8)); (8104, 8111, 1, (-8));
    (8120, 8121, 1, (-8)); (8122, 8123, 1, (-74)); (8124, 8124, 1, (-9));
    (8136, 8139, 1, (-86)); (8140, 8140, 1, (-9)); (8152, 8153, 1, (-8));
    (8154, 8155, 1, (-100)); (8168, 8169, 1, (-8)); (8170, 8171, 1, (-112));
    (8172, 8172, 1, (-7)); (8184, 8185, 1, (-128)); (8186, 8187, 1, (-126));
    (8188, 8188, 1, (-9)); (8486, 8486, 1, (-7517)); (8490, 8490, 1, (-8383));
    (8491, 8491, 1, (-8262)); (8498, 8498, 1, 28); (8544, 8559, 1, 16); (8579, 8579, 1, 1);
    (9398, 9423, 1, 26); (11264, 11311, 1, 48); (11360, 11360, 1, 1);
    (11362, 11362, 1, (-10743)); (11363, 11363, 1, (-3814)); (11364, 11364, 1, (-10727));
    (11367, 11371, 2, 1); (11373, 11373, 1, (-10780)); (11374, 11374, 1, (-10749));
    (11375, 11375, 1, (-10783)); (11376, 11376, 1, (-10782)); (11378, 11378, 1, 1);
    (11381, 11381, 1, 1); (11390, 11391, 1, (-10815)); (11392, 11490, 2, 1);
    (11499, 11501, 2, 1); (11506, 11506, 1, 1); (42560, 42604, 2, 1); (42624, 42650, 2, 1);
    (42786, 42798, 2, 1); (42802, 42862, 2, 1); (42873, 42875, 2, 1);
    (42877, 42877, 1, (-35332)); (42878, 42886, 2, 1); (42891, 42891, 1, 1);
    (42893, 42893, 1, (-42280)); (42896, 42898, 2, 1); (42902, 42920, 2, 1);
    (42922, 42922, 1, (-42308)); (42923, 42923, 1, (-42319)); (42924, 42924, 1, (-42315));
    (42925, 42925, 1, (-42305)); (42926, 42926, 1, (-42308)); (42928, 42928, 1, (-42258));
    (42929, 42929, 1, (-42282)); (42930, 42930, 1, (-42261)); (42931, 42931, 1, 928);
    (42932, 42946, 2, 1); (42948, 42948, 1, (-48)); (42949, 42949, 1, (-42307));
    (42950, 42950, 1, (-35384)); (42951, 42953, 2, 1); (42960, 42960, 1, 1);
    (42966, 42968, 2, 1); (42997, 42997, 1, 1); (65313, 65338, 1, 32); (66560, 66599, 1, 40);
    (66736, 66771, 1, 40); (66928, 66938, 1, 39); (66940, 66954, 1, 39); (66956, 66962, 1, 39);
    (66964, 66965, 1, 39); (68736, 68786, 1, 64); (71840, 71871, 1, 32); (93760, 93791, 1, 32);
    (125184, 125217, 1, 34)
  ].

(** The code points with the property Cased, as closed ranges. *)
Definition Cased : list (Z * Z) :=
  [
    (65, 90); (97, 122); (170, 170); (181, 181); (186, 186); (192, 214); (216, 246);
    (248, 442); (444, 447); (452, 659); (661, 696); (704, 705); (736, 740); (837, 837);
    (880, 883); (886, 887); (890, 893); (895, 895); (902, 902); (904, 906); (908, 908);
    (910, 929); (931, 1013); (1015, 1153); (1162, 1327); (1329, 1366); (1376, 1416);
    (4256, 4293); (4295, 4295); (4301, 4301); (4304, 4346); (4349, 4351); (5024, 5109);
    (5112, 5117); (7296, 7304); (7312, 7354); (7357, 7359); (7424, 7615); (7680, 7957);
    (7960, 7965); (7968, 8005); (8008, 8013); (8016, 8023); (8025, 8025); (8027, 8027);
    (8029, 8029); (8031, 8061); (8064, 8116); (8118, 8124); (8126, 8126); (8130, 8132);
    (8134, 8140); (8144, 8147); (8150, 8155); (8160, 8172); (8178, 8180); (8182, 8188);
    (8305, 8305); (8319, 8319); (8336, 8348); (8450, 8450); (8455, 8455); (8458, 8467);
    (8469, 8469); (8473, 8477); (8484, 8484); (8486, 8486); (8488, 8488); (8490, 8493);
    (8495, 8500); (8505, 8505); (8508, 8511); (8517, 8521); (8526, 8526); (8544, 8575);
    (8579, 8580); (9398, 9449); (11264, 11492); (11499, 11502); (11506, 11507); (11520, 11557);
    (11559, 11559); (11565, 11565); (42560, 42605); (42624, 42653); (42786, 42887);
    (42891, 42894); (42896, 42954); (42960, 42961); (42963, 42963); (42965, 42969);
    (42997, 42998); (43000, 43002); (43824, 43866); (43868, 43880); (43888, 43967);
    (64256, 64262); (64275, 64279); (65313, 65338); (65345, 65370); (66560, 66639);
    (66736, 66771); (66776, 66811); (66928, 66938); (66940, 66954); (66956, 66962);
    (66964, 66965); (66967, 66977); (66979, 66993); (66995, 67001); (67003, 67004);
    (67456, 67456); (67459, 67461); (67463, 67504); (67506, 67514); (68736, 68786);
    (68800, 68850); (71840, 71903); (93760, 93823); (119808, 119892); (119894, 119964);
    (119966, 119967); (119970, 119970); (119973, 119974); (119977, 119980); (119982, 119993);
    (119995, 119995); (119997, 120003); (120005, 120069); (120071, 120074); (120077, 120084);
    (120086, 120092); (120094, 120121); (120123, 120126); (120128, 120132); (120134, 120134);
    (120138, 120144); (120146, 120485); (120488, 120512); (120514, 120538); (120540, 120570);
    (120572, 120596); (120598, 120628); (120630, 120654); (120656, 120686); (120688, 120712);
    (120714, 120744); (120746, 120770); (120772, 120779); (122624, 122633); (122635, 122654);
    (125184, 125251); (127280, 127305); (127312, 127337); (127344, 127369)
  ].

(** The code points with the property Case_Ignorable, as closed ranges. *)
Definition Case_Ignorable : list (Z * Z) :=
  [
    (39, 39); (46, 46); (58, 58); (94, 94); (96, 96); (168, 168); (173, 173); (175, 175);
    (180, 180); (183, 184); (688, 879); (884, 885); (890, 890); (900, 901); (903, 903);
    (1155, 1161); (1369, 1369); (1375, 1375); (1425, 1469); (1471, 1471); (1473, 1474);
    (1476, 1477); (1479, 1479); (1524, 1524); (1536, 1541); (1552, 1562); (1564, 1564);
    (1600, 1600); (1611, 1631); (1648, 1648); (1750, 1757); (1759, 1768); (1770, 1773);
    (1807, 1807); (1809, 1809); (1840, 1866); (1958, 1968); (2027, 2037); (2042, 2042);
    (2045, 2045); (2070, 2093); (2137, 2139); (2184, 2184); (2192, 2193); (2200, 2207);
    (2249, 2306); (2362, 2362); (2364, 2364); (2369, 2376); (2381, 2381); (2385, 2391);
    (2402, 2403); (2417, 2417); (2433, 2433); (2492, 2492); (2497, 2500); (2509, 2509);
    (2530, 2531); (2558, 2558); (2561, 2562); (2620, 2620); (2625, 2626); (2631, 2632);
    (2635, 2637); (2641, 2641); (2672, 2673); (2677, 2677); (2689, 2690); (2748, 2748);
    (2753, 2757); (2759, 2760); (2765, 2765); (2786, 2787); (2810, 2815); (2817, 2817);
    (2876, 2876); (2879, 2879); (2881, 2884); (2893, 2893); (2901, 2902); (2914, 2915);
    (2946, 2946); (3008, 3008); (3021, 3021); (3072, 3072); (3076, 3076); (3132, 3132);
    (3134, 3136); (3142, 3144); (3146, 3149); (3157, 3158); (3170, 3171); (3201, 3201);
    (3260, 3260); (3263, 3263); (3270, 3270); (3276, 3277); (3298, 3299); (3328, 3329);
    (3387, 3388); (3393, 3396); (3405, 3405); (3426, 3427); (3457, 3457); (3530, 3530);
    (3538, 3540); (3542, 3542); (3633, 3633); (3636, 3642); (3654, 3662); (3761, 3761);
    (3764, 3772); (3782, 3782); (3784, 3789); (3864, 3865); (3893, 3893); (3895, 3895);
    (3897, 3897); (3953, 3966); (3968, 3972); (3974, 3975); (3981, 3991); (3993, 4028);
    (4038, 4038); (4141, 4144); (4146, 4151); (4153, 4154); (4157, 4158); (4184, 4185);
    (4190, 4192); (4209, 4212); (4226, 4226); (4229, 4230); (4237, 4237); (4253, 4253);
    (4348, 4348); (4957, 4959); (5906, 5908); (5938, 5939); (5970, 5971); (6002, 6003);
    (6068, 6069); (6071, 6077); (6086, 6086); (6089, 6099); (6103, 6103); (6109, 6109);
    (6155, 6159); (6211, 6211); (6277, 6278); (6313, 6313); (6432, 6434); (6439, 6440);
    (6450, 6450); (6457, 6459); (6679, 6680); (6683, 6683); (6742, 6742); (6744, 6750);
    (6752, 6752); (6754, 6754); (6757, 6764); (6771, 6780); (6783, 6783); (6823, 6823);
    (6832, 6862); (6912, 6915); (6964, 6964); (6966, 6970); (6972, 6972); (6978, 6978);
    (7019, 7027); (7040, 7041); (7074, 7077); (7080, 7081); (7083, 7085); (7142, 7142);
    (7144, 7145); (7149, 7149); (7151, 7153); (7212, 7219); (7222, 7223); (7288, 7293);
    (7376, 7378); (7380, 7392); (7394, 7400); (7405, 7405); (7412, 7412); (7416, 7417);
    (7468, 7530); (7544, 7544); (7579, 7679); (8125, 8125); (8127, 8129); (8141, 8143);
    (8157, 8159); (8173, 8175); (8189, 8190); (8203, 8207); (8216, 8217); (8228, 8228);
    (8231, 8231); (8234, 8238); (8288, 8292); (8294, 8303); (8305, 8305); (8319, 8319);
    (8336, 8348); (8400, 8432); (11388, 11389); (11503, 11505); (11631, 11631); (11647, 11647);
    (11744, 11775); (11823, 11823); (12293, 12293); (12330, 12333); (12337, 12341);
    (12347, 12347); (12441, 12446); (12540, 12542); (40981, 40981); (42232, 42237);
    (42508, 42508); (42607, 42610); (42612, 42621); (42623, 42623); (42652, 42655);
    (42736, 42737); (42752, 42785); (42864, 42864); (42888, 42890); (42994, 42996);
    (43000, 43001); (43010, 43010); (43014, 43014); (43019, 43019); (43045, 43046);
    (43052, 43052); (43204, 43205); (43232, 43249); (43263, 43263); (43302, 43309);
    (43335, 43345); (43392, 43394); (43443, 43443); (43446, 43449); (43452, 43453);
    (43471, 43471); (43493, 43494); (43561, 43566); (43569, 43570); (43573, 43574);
    (43587, 43587); (43596, 43596); (43632, 43632); (43644, 43644); (43696, 43696);
    (43698, 43700); (43703, 43704); (43710, 43711); (43713, 43713); (43741, 43741);
    (43756, 43757); (43763, 43764); (43766, 43766); (43867, 43871); (43881, 43883);
    (44005, 44005); (44008, 44008); (44013, 44013); (64286, 64286); (64434, 64450);
    (65024, 65039); (65043, 65043); (65056, 65071); (65106, 65106); (65109, 65109);
    (65279, 65279); (65287, 65287); (65294, 65294); (65306, 65306); (65342, 65342);
    (65344, 65344); (65392, 65392); (65438, 65439); (65507, 65507); (65529, 65531);
    (66045, 66045); (66272, 66272); (66422, 66426); (67456, 67461); (67463, 67504);
    (67506, 67514); (68097, 68099); (68101, 68102); (68108, 68111); (68152, 68154);
    (68159, 68159); (68325, 68326); (68900, 68903); (69291, 69292); (69446, 69456);
    (69506, 69509); (69633, 69633); (69688, 69702); (69744, 69744); (69747, 69748);
    (69759, 69761); (69811, 69814); (69817, 69818); (69821, 69821); (69826, 69826);
    (69837, 69837); (69888, 69890); (69927, 69931); (69933, 69940); (70003, 70003);
    (70016, 70017); (70070, 70078); (70089, 70092); (70095, 70095); (70191, 70193);
    (70196, 70196); (70198, 70199); (70206, 70206); (70367, 70367); (70371, 70378);
    (70400, 70401); (70459, 70460); (70464, 70464); (70502, 70508); (70512, 70516);
    (70712, 70719); (70722, 70724); (70726, 70726); (70750, 70750); (70835, 70840);
    (70842, 70842); (70847, 70848); (70850, 70851); (71090, 71093); (71100, 71101);
    (71103, 71104); (71132, 71133); (71219, 71226); (71229, 71229); (71231, 71232);
    (71339, 71339); (71341, 71341); (71344, 71349); (71351, 71351); (71453, 71455);
    (71458, 71461); (71463, 71467); (71727, 71735); (71737, 71738); (71995, 71996);
    (71998, 71998); (72003, 72003); (72148, 72151); (72154, 72155); (72160, 72160);
    (72193, 72202); (72243, 72248); (72251, 72254); (72263, 72263); (72273, 72278);
    (72281, 72283); (72330, 72342); (72344, 72345); (72752, 72758); (72760, 72765);
    (72767, 72767); (72850, 72871); (72874, 72880); (72882, 72883); (72885, 72886);
    (73009, 73014); (73018, 73018); (73020, 73021); (73023, 73029); (73031, 73031);
    (73104, 73105); (73109, 73109); (73111, 73111); (73459, 73460); (78896, 78904);
    (92912, 92916); (92976, 92982); (92992, 92995); (94031, 94031); (94095, 94111);
    (94176, 94177); (94179, 94180); (110576, 110579); (110581, 110587); (110589, 110590);
    (113821, 113822); (113824, 113827); (118528, 118573); (118576, 118598); (119143, 119145);
    (119155, 119170); (119173, 119179); (119210, 119213); (119362, 119364); (121344, 121398);
    (121403, 121452); (121461, 121461); (121476, 121476); (121499, 121503); (121505, 121519);
    (122880, 122886); (122888, 122904); (122907, 122913); (122915, 122916); (122918, 122922);
    (123184, 123197); (123566, 123566); (123628, 123631); (125136, 125142); (125252, 125259);
    (127995, 127999); (917505, 917505); (917536, 917631); (917760, 917999)
  ].

Definition in_ranges (c : Z) (ranges : list (Z * Z)) : bool :=
  existsb (fun r => (fst r <=? c) && (c <=? snd r)) ranges.

Definition cased (c : Z) : bool := in_ranges c Cased.

Definition case_ignorable (c : Z) : bool := in_ranges c Case_Ignorable.

Definition simple_lower (c : Z) : Z :=
  match find (fun m => match m with
                       | (first, last, step, _) =>
                           (first <=? c) && (c <=? last) && ((c - first) mod step =? 0)
                       end) Lowercase_Mapping with
  | Some (_, _, _, delta) => c + delta
  | None => c
  end.

(** Is a cased letter next, case-ignorable code points apart? *)
Fixpoint cased_letter_next (l : list scalar) : bool :=
  match l with
  | CodePoint c :: rest => if case_ignorable c then cased_letter_next rest else cased c
  | _ => false
  end.

(** [after_cased]: a cased letter came before, with only case-ignorable
    code points since. A capital sigma U+03A3 in that place, with no cased
    letter next, becomes the final sigma U+03C2. *)
Fixpoint to_lower (after_cased : bool) (l : list scalar) : list scalar :=
  match l with
  | [] => []
  | Stray b :: rest => Stray b :: to_lower false rest
  | CodePoint c :: rest =>
      let lowered :=
        if c =? 304 then [CodePoint 105; CodePoint 775]
        else if c =? 931 then
          [CodePoint (if after_cased && negb (cased_letter_next rest) then 962 else 963)]
        else [CodePoint (simple_lower c)] in
      lowered ++ to_lower (if case_ignorable c then after_cased else cased c) rest
  end.

End Unicode.

(** [String.prototype.toLowerCase] *)
Definition toLowerCase (s : string) : string :=
  Unicode.utf8_encode (Unicode.to_lower false (Unicode.utf8_decode s)).

(** [path.extname] of Node (POSIX): the path is scanned from its last
    character to its first; [startDot], [startPart], [end_] and [preDotState]
    are the variables of Node's implementation, [-1] meaning not found yet,
    and [stopped] records its [break]. *)
Record ext_scan : Type := {
  startDot : Z;
  startPart : Z;
  end_ : Z;
  matchedSlash : bool;
  preDotState : Z;
  stopped : bool
}.

Definition ext_scan_init : ext_scan :=
  {| startDot := -1; startPart := 0; end_ := -1; matchedSlash := true;
     preDotState := 0; stopped := false |}.

Definition ext_scan_step (st : ext_scan) (ic : Z * ascii) : ext_scan :=
  let '(i, c) := ic in
  if stopped st then st
  else if Ascii.eqb c "/"%char then
    if negb (matchedSlash st)
    then {| startDot := startDot st; startPart := i + 1; end_ := end_ st;
            matchedSlash := matchedSlash st; preDotState := preDotState st;
            stopped := true |}
    else st
  else
    let st1 :=
      if end_ st =? -1
      then {| startDot := startDot st; startPart := startPart st; end_ := i + 1;
              matchedSlash := false; preDotState := preDotState st;
              stopped := false |}
      else st in
    if Ascii.eqb c "."%char then
      if startDot st1 =? -1
      then {| startDot := i; startPart := startPart st1; end_ := end_ st1;
              matchedSlash := matchedSlash st1; preDotState := preDotState st1;
              stopped := false |}
      else if negb (preDotState st1 =? 1)
      then {| startDot := startDot st1; startPart := startPart st1; end_ := end_ st1;
              matchedSlash := matchedSlash st1; preDotState := 1;
              stopped := false |}
      else st1
    else if negb (startDot st1 =? -1)
    then {| startDot := startDot st1; startPart := startPart st1; end_ := end_ st1;
            matchedSlash := matchedSlash st1; preDotState := -1;
            stopped := false |}
    else st1.

Definition indexed (s : string) : list (Z * ascii) :=
  let cs := list_ascii_of_string s in
  combine (map Z.of_nat (seq 0 (List.length cs))) cs.

Definition extname (p : string) : string :=
  let st := fold_left ext_scan_step (rev (indexed p)) ext_scan_init in
  if (startDot st =? -1) || (end_ st =? -1) || (preDotState st =? 0)
     || ((preDotState st =? 1) && (startDot st =? end_ st - 1)
         && (startDot st =? startPart st + 1))
  then EmptyString
  else substring (Z.to_nat (startDot st)) (Z.to_nat (end_ st - startDot st)) p.

(** What the [fileFilter] hands to multer's callback: [cb(null, true)] or
    [cb(new Error(message), false)]. *)
Inductive filter_callback : Type :=
| CbAccept
| CbError (message : string).

(** The type test of the [fileFilter]. *)
Definition type_allowed (file : candidate) : bool :=
  let fileExtension := toLowerCase (extname (originalname file)) in
  includes allowedMimeTypes (mimetype file) || includes allowedExtensions fileExtension.

Definition fileFilter (file : candidate) : M filter_callback :=
  log (LogReceived (originalname file) (mimetype file)) ;;;
  if type_allowed file
  then ret CbAccept
  else ret (CbError "Invalid file type. Only code and text files are allowed.").

(** [limits.fileSize] *)
Definition fileSize : Z := 5 * 1024 * 1024.

(** [req.file] once multer has stored the upload under [dest]. *)
Record req_file : Type := {
  path : string;
  upload : candidate
}.

(** The error multer passes to the callback of the uploader: the error of the
    [fileFilter], or its own [MulterError] with code [LIMIT_FILE_SIZE], whose
    message is "File too large". *)
Inductive upload_error : Type :=
| FilterError (message : string)
| MulterLimitFileSize.

Definition InvalidFileType : upload_error :=
  FilterError "Invalid file type. Only code and text files are allowed.".
Definition FileTooLarge : upload_error := MulterLimitFileSize.

Inductive upload_result : Type :=
| UploadFailed (err : upload_error)
| UploadDone (file : option req_file).

(** The request as the route receives it: the file part of the field "file"
    if there is one, the text field "prompt" if there is one, and the random
    name multer draws for the stored file. A part whose file name is empty
    is no file to multer, which passes over it: such a request has no
    [file_part] here. *)
Record request : Type := {
  file_part : option candidate;
  prompt : option string;
  tmp_name : string
}.

(** The first [n] bytes of [text]. *)
Fixpoint take_bytes (n : Z) (text : string) : string :=
  match text with
  | EmptyString => EmptyString
  | String c rest =>
      if 0 <? n then String c (take_bytes (n - 1) rest) else EmptyString
  end.

(** Multer removing a file it stored, after it aborted the upload:
    [fs.unlink] on the path. An error of the unlink goes into the
    [storageErrors] of the error multer hands over, which the route never
    reads: it reaches neither the console nor the caller. *)
Definition multer_remove (p : string) : M unit :=
  modify (emit (EvUnlink p)) ;;;
  e <- ask ;;
  match unlink_fault e p with
  | Some _ => ret tt
  | None => modify (fun s => set_uploads (delete p (uploads s)) s)
  end.

(** [upload.single("file")], the middleware multer builds from the options of
    the source ([dest], [limits.fileSize], [fileFilter]). Multer consults the
    [fileFilter] when the header of the file part arrives, before any byte of
    the file is read, and aborts with the filter's error if it gives one. It
    then streams an accepted file to [dest]; a file stored in full becomes
    [req.file]. When the file has more than [limits.fileSize] bytes, the
    stream ends at the limit: multer has written the bytes up to it, aborts
    with [LIMIT_FILE_SIZE] and removes what it wrote. *)
Definition uploader (req : request) : M upload_result :=
  match file_part req with
  | None => ret (UploadDone None)
  | Some file =>
      cb <- fileFilter file ;;
      match cb with
      | CbError message => ret (UploadFailed (FilterError message))
      | CbAccept =>
          let p := "uploads/" +:+ tmp_name req in
          if size file <=? fileSize then
            modify (fun s => set_uploads (<[p := content file]> (uploads s)) s) ;;;
            ret (UploadDone (Some {| path := p; upload := file |}))
          else
            modify (fun s =>
              set_uploads (<[p := take_bytes fileSize (content file)]> (uploads s)) s) ;;;
            multer_remove p ;;;
            ret (UploadFailed MulterLimitFileSize)
      end
  end.

(** ** The temporary file *)

(** [fs.existsSync] *)
Definition existsSync (p : string) : M bool :=
  s <- get ;;
  ret (bool_decide (is_Some (uploads s !! p))).

(** [fs.unlink(path, callback)]: the file is removed, or the callback is told
    why it is not. Node removes the file and runs the callback later, from
    its event loop; here both happen at the call. *)
Definition unlink (p : string) (callback : option string -> M unit) : M unit :=
  modify (emit (EvUnlink p)) ;;;
  e <- ask ;;
  match unlink_fault e p with
  | Some err => callback (Some err)
  | None =>
      modify (fun s => set_uploads (delete p (uploads s)) s) ;;;
      callback None
  end.

Definition deleteTempFile (filePath : string) : M unit :=
  if String.eqb filePath EmptyString then ret tt
  else
    present <- existsSync filePath ;;
    if present then
      unlink filePath (fun err =>
        match err with
        | Some message => log (LogUnlinkError message)
        | None => ret tt
        end)
    else ret tt.

(** [fs.readFileSync(path, "utf8")] *)
Definition readFileSync (p : string) : M string :=
  modify (emit (EvReadFile p)) ;;;
  s <- get ;;
  match uploads s !! p with
  | Some text => ret text
  | None => throw (Foreign "ENOENT: no such file or directory")
  end.

(** ** The reviews table *)

(** Modelled from the spec: [pool] comes from [db.js], which is not among the
    sources, and stands for the relational store behind it. The table
    [reviews] has an auto-assigned unique key [id] and a [created_at]
    defaulted to the time of the insert; inserting, reading and deleting one
    row are atomic; any query may fail as a whole, which rejects the promise
    of [pool.query]. Identifiers are the integers the store compares. *)
Definition pool_query {A} (sql : string) (run : env -> state -> A * state) : M A :=
  fun e s =>
    let s1 := emit (EvQuery sql) s in
    match store_fault e (queries s) with
    | Some message => (Throw (Foreign message), count_query s1)
    | None => let '(a, s2) := run e s1 in (Normal a, count_query s2)
    end.

Definition insert_sql : string :=
  "INSERT INTO reviews (filename, review_prompt, report) VALUES ($1, $2, $3) RETURNING id, filename, created_at".

(** [pool.query(insert_sql, [filename, prompt, report])]: the rows of the
    result. *)
Definition insert_review (name userPrompt : string) (text : jsval) : M (list review) :=
  pool_query insert_sql
    (fun e s =>
       let row := {| id := next_id s; filename := name; review_prompt := userPrompt;
                     report := text; created_at := clock e (queries s) |} in
       ([row], set_reviews (<[next_id s := row]> (reviews s)) (next_id s + 1) s)).

(** [SELECT * FROM reviews WHERE id = $1] *)
Definition select_review (key : Z) : M (list review) :=
  pool_query "SELECT * FROM reviews WHERE id = $1"
    (fun _ s => (match reviews s !! key with Some row => [row] | None => [] end, s)).

(** [DELETE FROM reviews WHERE id = $1 RETURNING id]: the [rowCount]. *)
Definition delete_review (key : Z) : M nat :=
  pool_query "DELETE FROM reviews WHERE id = $1 RETURNING id"
    (fun _ s =>
       (match reviews s !! key with Some _ => 1%nat | None => 0%nat end,
        set_reviews (delete key (reviews s)) (next_id s) s)).

(** ** The routes *)

(** What the route sends: [res.status(code).json(body)], or
    [res.status(code).end()] when there is no body. *)
Record http_response : Type := {
  code : Z;
  body : option jsval
}.

Definition json_error (c : Z) (message : string) : http_response :=
  {| code := c; body := Some (JObj [("error", JStr message)]) |}.

Fixpoint pos_to_float (p : positive) : float :=
  match p with
  | xH => 1%float
  | xO q => (2 * pos_to_float q)%float
  | xI q => (2 * pos_to_float q + 1)%float
  end.

(** The number an integer column becomes in a result row. *)
Definition Z_to_float (z : Z) : float :=
  match z with
  | Z0 => 0%float
  | Zpos p => pos_to_float p
  | Zneg p => (- pos_to_float p)%float
  end.

(** The decimal text of an identifier, as it appears in a URL. *)
Definition show_id (z : Z) : string := DecimalString.NilZero.string_of_int (Z.to_int z).

Definition nl : string := String (ascii_of_nat 10) EmptyString.
Definition dquote : string := String (ascii_of_nat 34) EmptyString.

(** The template literal of [fullPrompt]. *)
Definition fullPrompt (userPrompt name text : string) : string :=
  "Please act as an expert code reviewer. Review the following code file and provide a structured report."
  +:+ nl +:+ nl +:+ "User's Instructions: " +:+ dquote +:+ userPrompt +:+ dquote
  +:+ nl +:+ nl +:+ "File Name: " +:+ name
  +:+ nl +:+ nl +:+ "---" +:+ nl +:+ nl +:+ "```" +:+ nl +:+ text +:+ nl +:+ "```"
  +:+ nl +:+ nl +:+ "---" +:+ nl +:+ nl
  +:+ "Your report should include sections for potential bugs, suggestions for improvement (like performance, readability, and best practices), and an overall assessment.".

Definition make_payload (text : string) : jsval :=
  JObj [ ("contents", JArr [JObj [("parts", JArr [JObj [("text", JStr text)]])]]);
         ("generationConfig", JObj [("temperature", JNum 0.2%float)]) ].

(** [req.body.prompt] as a value: a string, or [undefined]. *)
Definition prompt_value (p : option string) : jsval :=
  match p with
  | Some text => JStr text
  | None => JUndefined
  end.

(** [{ ...dbResult.rows[0], prompt: userPrompt, report }]; spreading
    [undefined] (no row) adds nothing. *)
Definition review_json (rows : list review) (userPrompt : string) (text : jsval) : jsval :=
  JObj (match rows with
        | row :: _ => [ ("id", JNum (Z_to_float (id row)));
                        ("filename", JStr (filename row));
                        ("created_at", JStr (created_at row)) ]
        | [] => []
        end ++ [ ("prompt", JStr userPrompt); ("report", text) ]).

Definition generic_500 : http_response :=
  json_error 500 "An internal server error occurred during the analysis.".

(** The [try] block of the handler of [POST /api/analyze]. *)
Definition analyze_try (file : option req_file) (userPrompt : option string)
  : M http_response :=
  match file with
  | None => ret (json_error 400 "A code file is required.")
  | Some f =>
      if negb (truthy (prompt_value userPrompt))
      then ret (json_error 400 "A review prompt is required.")
      else
        let userPrompt := default EmptyString userPrompt in
        text <- readFileSync (path f) ;;
        let payload :=
          make_payload (fullPrompt userPrompt (originalname (upload f)) text) in
        generated <- callGeminiApi payload ;;
        rows <- insert_review (originalname (upload f)) userPrompt generated ;;
        ret {| code := 201;
               body := Some (JObj [ ("message", JStr "Analysis successful!");
                                    ("review", review_json rows userPrompt generated) ]) |}
  end.

(** The handler: [try { ... } catch (error) { ... } finally { ... }]. *)
Definition analyze_handler (file : option req_file) (userPrompt : option string)
  : M http_response :=
  try_finally
    (try_catch (analyze_try file userPrompt)
       (fun error =>
          log (LogAnalysisError error) ;;;
          ret generic_500))
    (match file with
     | Some f => deleteTempFile (path f)
     | None => ret tt
     end).

(** [POST /api/analyze]: the uploader, then the handler if the uploader
    called [next()]. *)
Definition analyze_route (req : request) : M http_response :=
  up <- uploader req ;;
  match up with
  | UploadFailed MulterLimitFileSize =>
      ret (json_error 400 ("File upload error: " +:+ "File too large"))
  | UploadFailed (FilterError message) => ret (json_error 400 message)
  | UploadDone file => analyze_handler file (prompt req)
  end.

Definition row_json (row : review) : jsval :=
  JObj [ ("id", JNum (Z_to_float (id row)));
         ("filename", JStr (filename row));
         ("review_prompt", JStr (review_prompt row));
         ("report", report row);
         ("created_at", JStr (created_at row)) ].

Definition not_found (key : Z) : http_response :=
  json_error 404 ("Report with ID " +:+ show_id key +:+ " not found.").

(** [GET /api/reports/:id] *)
Definition get_report (key : Z) : M http_response :=
  try_catch
    (rows <- select_review key ;;
     match rows with
     | [] => ret (not_found key)
     | row :: _ => ret {| code := 200; body := Some (row_json row) |}
     end)
    (fun error =>
       log (LogReportError key error) ;;;
       ret (json_error 500 "Failed to fetch the specified report.")).

(** [DELETE /api/reports/:id] *)
Definition delete_report (key : Z) : M http_response :=
  try_catch
    (rowCount <- delete_review key ;;
     if (rowCount =? 0)%nat then ret (not_found key)
     else ret {| code := 204; body := None |})
    (fun error =>
       log (LogReportError key error) ;;;
       ret (json_error 500 "Failed to delete the report.")).

(** ** Vocabulary of the specification *)

(** The failures the specification names, as the errors the client throws. *)
Definition MissingCredential : js_error :=
  Error "GEMINI_API_KEY is not set in environment variables.".
Definition GenerationExhausted : js_error :=
  Error "Gemini API call failed after multiple retries.".
Definition EmptyGeneration : js_error :=
  Error "Gemini API returned an empty or invalid response.".


(** An attempt succeeds with [v]: a success status, a body that parses, and a
    truthy value [v] at [candidates[0].content.parts[0].text]. *)
Definition attempt_success (o : fetch_outcome) : option jsval :=
  match o with
  | FetchFault _ => None
  | FetchResponse r =>
      if ok r then
        match json r with
        | JsonValue v =>
            if truthy (extract_report v) then Some (extract_report v) else None
        | JsonReject _ => None
        end
      else None
  end.

(** A retryable condition: a network-level fault, or a status of 500 or more. *)
Definition retryable (o : fetch_outcome) : bool :=
  match o with
  | FetchFault _ => true
  | FetchResponse r => 500 <=? status r
  end.

(** A terminal condition: a non-success status below 500, or a success status
    whose body has no non-empty generated text. *)
Definition terminal (o : fetch_outcome) : bool :=
  match o with
  | FetchFault _ => false
  | FetchResponse r =>
      if ok r then
        match attempt_success o with
        | Some _ => false
        | None => true
        end
      else status r <? 500
  end.

(** The error with which a failed attempt leaves its [try] block, when it
    leaves it by a [throw]. *)
Definition upstream_error (r : response) : js_error :=
  match error_detail (response_json_or_empty r) r with
  | Normal detail => GeminiApiError (status r) detail
  | Throw err => err
  end.

Definition attempt_error (o : fetch_outcome) : js_error :=
  match o with
  | FetchFault message => Foreign message
  | FetchResponse r =>
      if ok r then
        match json r with
        | JsonValue _ => EmptyGeneration
        | JsonReject message => Foreign message
        end
      else upstream_error r
  end.

Definition is_log (ev : event) : bool :=
  match ev with
  | EvLog _ => true
  | _ => false
  end.

(** The trace without its console lines. *)
Definition actions (t : list event) : list event :=
  List.filter (fun ev => negb (is_log ev)) t.

Definition sleeps (t : list event) : list Z :=
  flat_map (fun ev => match ev with EvSleep ms => [ms] | _ => [] end) t.

Definition unlinks (p : string) (t : list event) : nat :=
  List.length (List.filter (fun ev => match ev with
                                      | EvUnlink q => String.eqb p q
                                      | _ => false
                                      end) t).

(** What a call that makes [k] attempts, the first of index [i], does apart
    from logging: each attempt but the last is followed by its wait, the last
    one by nothing. *)
Definition schedule (payload : jsval) (i k : nat) : list event :=
  flat_map (fun j => [EvFetch payload; EvSleep (backoff j)]) (seq i (k - 1))
  ++ [EvFetch payload].

(** The state is the same but for the trace and the count of fetches. *)
Definition same_store (s s' : state) : Prop :=
  uploads s' = uploads s /\ reviews s' = reviews s /\
  next_id s' = next_id s /\ queries s' = queries s.

(** The console line of the [fileFilter]. *)
Definition received (file : candidate) : event :=
  EvLog (LogReceived (originalname file) (mimetype file)).

(** [req.file] for a file part that multer stored. *)
Definition stored_as (req : request) (file : candidate) : req_file :=
  {| path := "uploads/" +:+ tmp_name req; upload := file |}.

(** The state in which multer leaves an upload it aborted for its size: the
    bytes up to the limit were written under [uploads/], the unlink was
    issued, and the file is gone unless the unlink failed. *)
Definition aborted (req : request) (file : candidate) (e : env) (s : state) : state :=
  let p := path (stored_as req file) in
  let s1 :=
    emit (EvUnlink p)
      (set_uploads (<[p := take_bytes fileSize (content file)]> (uploads s)) s) in
  match unlink_fault e p with
  | Some _ => s1
  | None => set_uploads (delete p (uploads s1)) s1
  end.

(** Nothing was stored or removed under [uploads/], and no [fs.unlink] was
    issued. *)
Definition keeps_files (s s' : state) : Prop :=
  uploads s' = uploads s /\ forall q, unlinks q (trace s') = unlinks q (trace s).

(** The row the handler inserts when the generation returned [generated]. *)
Definition created (f : req_file) (userPrompt : string) (generated : jsval)
  (e : env) (s : state) : review :=
  {| id := next_id s; filename := originalname (upload f); review_prompt := userPrompt;
     report := generated; created_at := clock e (queries s) |}.

(** The 201 answer of [POST /api/analyze]. *)
Definition success_201 (row : review) (userPrompt : string) (generated : jsval)
  : http_response :=
  {| code := 201;
     body := Some (JObj [ ("message", JStr "Analysis successful!");
                          ("review", review_json [row] userPrompt generated) ]) |}.

(** The payload the handler sends for a stored file and a prompt. *)
Definition request_payload (f : req_file) (p : option string) : jsval :=
  make_payload (fullPrompt (default EmptyString p) (originalname (upload f))
                           (content (upload f))).

Definition total_wait (t : list event) : Z := fold_right Z.add 0 (sleeps t).

(** ** Test doubles *)

(** An empty world: no upload, no review, nothing done yet. *)
Definition start : state :=
  {| uploads := ∅; reviews := ∅; next_id := 1; fetches := 0; queries := 0;
     trace := [] |}.

(** A 200 response carrying [text] where the client looks for it. *)
Definition gemini_reply (text : string) : fetch_outcome :=
  FetchResponse
    {| status := 200; statusText := "OK";
       json := JsonValue
         (JObj [("candidates",
                 JArr [JObj [("content",
                              JObj [("parts", JArr [JObj [("text", JStr text)]])])]])]) |}.

(** A response with status [st] and an error body without a message. *)
Definition status_reply (st : Z) (text : string) : fetch_outcome :=
  FetchResponse {| status := st; statusText := text; json := JsonValue (JObj []) |}.

(** A deployment with a key, a healthy store and a healthy disk, whose remote
    endpoint answers as [remote] says. *)
Definition mock (remote : nat -> fetch_outcome) : env :=
  {| GEMINI_API_KEY := Some "test-key"; endpoint := remote;
     store_fault := fun _ => None; unlink_fault := fun _ => None;
     clock := fun _ => "2025-01-01T00:00:00.000Z" |}.

Definition always_503 : env :=
  mock (fun _ => status_reply 503 "Service Unavailable").

Definition first_400_then_ok : env :=
  mock (fun n => match n with
                 | O => status_reply 400 "Bad Request"
                 | _ => gemini_reply "looks fine"
                 end).

Definition fifth_time_lucky : env :=
  mock (fun n => if (n <? 4)%nat then status_reply 500 "Internal Server Error"
                 else gemini_reply "looks fine").

Definition empty_text_then_ok : env :=
  mock (fun n => match n with
                 | O => gemini_reply EmptyString
                 | _ => gemini_reply "looks fine"
                 end).

Definition some_payload : jsval := make_payload "review this".

Definition no_key : env :=
  {| GEMINI_API_KEY := None; endpoint := fun _ => gemini_reply "looks fine";
     store_fault := fun _ => None; unlink_fault := fun _ => None;
     clock := fun _ => "2025-01-01T00:00:00.000Z" |}.

(** The store refuses every query and the disk every unlink. *)
Definition store_down : env :=
  {| GEMINI_API_KEY := Some "test-key"; endpoint := fun _ => gemini_reply "looks fine";
     store_fault := fun _ => Some "connection refused";
     unlink_fault := fun _ => Some "EPERM";
     clock := fun _ => "2025-01-01T00:00:00.000Z" |}.

Definition offline : env := mock (fun _ => FetchFault "fetch failed").

Definition big_png : candidate :=
  {| originalname := "photo.png"; mimetype := "image/png";
     size := 6 * 1024 * 1024; content := "not text" |}.

Definition small_py : candidate :=
  {| originalname := "script.PY"; mimetype := "application/unknown";
     size := 2048; content := "print(1)" |}.

Definition huge_py : candidate :=
  {| originalname := "big.py"; mimetype := "text/x-python";
     size := 5 * 1024 * 1024 + 1; content := "print(1)" |}.

Definition binary_blob : candidate :=
  {| originalname := "program.exe"; mimetype := "application/octet-stream";
     size := 4096; content := "MZ" |}.

Definition upload_of (file : candidate) : request :=
  {| file_part := Some file; prompt := Some "Check for bugs"; tmp_name := "3f2a9c" |}.

Definition sample_row : review :=
  {| id := 1; filename := "a.py"; review_prompt := "check"; report := JStr "ok";
     created_at := "2025-01-01T00:00:00.000Z" |}.

Definition one_review : state :=
  {| uploads := ∅; reviews := {[ 1 := sample_row ]}; next_id := 2; fetches := 0;
     queries := 0; trace := [] |}.

(** ** Further vocabulary *)

(** The attempt number a console line of the client carries. *)
Definition line_attempt (line : log_line) : option nat :=
  match line with
  | LogAttemptStatus n _ _ | LogAttemptError n _ => Some n
  | _ => None
  end.

(** A character that is neither the dot nor the path separator. *)
Definition plain (c : ascii) : bool :=
  negb (Ascii.eqb c "."%char) && negb (Ascii.eqb c "/"%char).

Fixpoint all_plain (s : string) : bool :=
  match s with
  | EmptyString => true
  | String c rest => plain c && all_plain rest
  end.

Fixpoint no_dot (s : string) : bool :=
  match s with
  | EmptyString => true
  | String c rest => negb (Ascii.eqb c "."%char) && no_dot rest
  end.

(** The characters [cs] with their positions, the first one at [k]. *)
Definition indexed_from (k : nat) (cs : list ascii) : list (Z * ascii) :=
  combine (map Z.of_nat (seq k (List.length cs))) cs.

(** The scan of [path.extname] over [cs], last character first, from the
    state [st]. *)
Definition scan_from (k : nat) (cs : list ascii) (st : ext_scan) : ext_scan :=
  fold_right (fun ic acc => ext_scan_step acc ic) st (indexed_from k cs).

(** Every identifier the sequence has yet to hand out is free. *)
Definition fresh_ids (s : state) : Prop :=
  forall k, next_id s <= k -> reviews s !! k = None.

(** The row a successful analysis of [file] records. *)
Definition recorded (req : request) (file : candidate) (generated : jsval)
  (e : env) (s : state) : review :=
  {| id := next_id s; filename := originalname file;
     review_prompt := default EmptyString (prompt req);
     report := generated; created_at := clock e (queries s) |}.

(** Two 404 answers, then a 200 with text. *)
Definition flaky : env :=
  mock (fun n => if (n <? 2)%nat then status_reply 404 "Not Found"
                 else gemini_reply "third time").

Definition dot_py : candidate :=
  {| originalname := ".py"; mimetype := "application/unknown";
     size := 12; content := "print(1)" |}.

Definition makefile : candidate :=
  {| originalname := "Makefile"; mimetype := "application/unknown";
     size := 12; content := "all:" |}.

Definition no_prompt (file : candidate) : request :=
  {| file_part := Some file; prompt := Some EmptyString; tmp_name := "3f2a9c" |}.

(** A string given by its bytes. *)
Definition utf8 (l : list Z) : string :=
  fold_right (fun b s => String (Unicode.of_byte b) s) EmptyString l.

(** The Kelvin sign U+212A, in UTF-8. *)
Definition kelvin : string :=
  String "226"%char (String "132"%char (String "170"%char EmptyString)).

(** A file whose extension is the Kelvin sign followed by "t". *)
Definition kelvin_kt : candidate :=
  {| originalname := "a." +:+ kelvin +:+ "t"; mimetype := "application/unknown";
     size := 12; content := "fun main() {}" |}.

(** Every answer is a 503 whose [error.message] is an object with a key
    "toString". *)
Definition unprintable_503 : env :=
  mock (fun _ =>
    FetchResponse
      {| status := 503; statusText := "Service Unavailable";
         json := JsonValue
           (JObj [("error", JObj [("message", JObj [("toString", JNum 1%float)])])]) |}).

Definition with_leftover : state :=
  {| uploads := {[ "uploads/old" := "x" ]}; reviews := ∅; next_id := 1;
     fetches := 0; queries := 0; trace := [] |}.

(** ** The client: one attempt, then the loop *)

Lemma actions_app (t1 t2 : list event) :
  actions (t1 ++ t2) = actions t1 ++ actions t2.
Proof. apply List.filter_app. Qed.

Lemma sleeps_app (t1 t2 : list event) :
  sleeps (t1 ++ t2) = sleeps t1 ++ sleeps t2.
Proof. apply flat_map_app. Qed.

Lemma sleeps_actions (t : list event) : sleeps (actions t) = sleeps t.
Proof.
  induction t as [| ev t IH]; [reflexivity |].
  destruct ev; simpl; rewrite ?IH; reflexivity.
Qed.

Lemma same_store_trans (s1 s2 s3 : state) :
  same_store s1 s2 -> same_store s2 s3 -> same_store s1 s3.
Proof. unfold same_store. intuition congruence. Qed.

Ltac run :=
  unfold attempt, attempt_try, attempt_catch, try_catch, bind, fetch, response_json,
    lift, log, sleep, modify, ret, throw; simpl.

Ltac fin :=
  simpl; repeat split; rewrite ?actions_app; simpl; rewrite <- ?app_assoc; reflexivity.

(** One iteration of the loop: it always sends one request and touches
    nothing but the trace; it returns exactly when the attempt succeeds;
    otherwise it throws on the last index and waits on the others. *)
Lemma attempt_spec (i : nat) (payload : jsval) (e : env) (s : state) :
  (i < MAX_RETRIES)%nat ->
  let o := endpoint e (fetches s) in
  let c := fst (attempt i payload e s) in
  let s' := snd (attempt i payload e s) in
  fetches s' = S (fetches s) /\ same_store s s' /\
  match attempt_success o with
  | Some v =>
      c = Normal (Return v) /\
      actions (trace s') = actions (trace s) ++ [EvFetch payload]
  | None =>
      if (i =? MAX_RETRIES - 1)%nat
      then c = Throw (attempt_error o) /\
           actions (trace s') = actions (trace s) ++ [EvFetch payload]
      else c = Normal Next /\
           actions (trace s') =
             actions (trace s) ++ [EvFetch payload; EvSleep (backoff i)]
  end.
Proof.
  intros Hi o c s'. subst o c s'.
  change (MAX_RETRIES - 1)%nat with 4%nat.
  assert (Hlt : (i <? 4)%nat = negb (i =? 4)%nat).
  { unfold MAX_RETRIES in Hi.
    destruct (Nat.eqb_spec i 4); destruct (Nat.ltb_spec i 4); simpl; trivial; lia. }
  run. change (MAX_RETRIES - 1)%nat with 4%nat. rewrite Hlt.
  destruct (endpoint e (fetches s)) as [msg | r]; simpl.
  - destruct (i =? 4)%nat; fin.
  - unfold upstream_error.
    destruct (ok r); simpl.
    + destruct (json r) as [v | msg]; simpl.
      * destruct (truthy (extract_report v)); simpl; [fin |].
        destruct (i =? 4)%nat; fin.
      * destruct (i =? 4)%nat; fin.
    + destruct (i =? 4)%nat eqn:E; simpl; rewrite ?andb_false_r, ?andb_true_r.
      * destruct (error_detail (response_json_or_empty r) r); simpl; rewrite ?E; fin.
      * destruct (500 <=? status r); simpl; [fin |].
        destruct (error_detail (response_json_or_empty r) r); simpl; rewrite ?E; fin.
Qed.

Lemma schedule_succ (payload : jsval) (i k : nat) :
  (1 <= k)%nat ->
  schedule payload i (S k) =
    [EvFetch payload; EvSleep (backoff i)] ++ schedule payload (S i) k.
Proof.
  intros Hk. unfold schedule.
  replace (S k - 1)%nat with (S (k - 1)) by lia. reflexivity.
Qed.

Lemma sleeps_schedule (payload : jsval) (i k : nat) :
  sleeps (schedule payload i k) = map backoff (seq i (k - 1)).
Proof.
  unfold schedule. generalize (seq i (k - 1)) as l.
  induction l as [| j l IH]; [reflexivity |].
  simpl. simpl in IH. rewrite IH. reflexivity.
Qed.

Lemma retry_loop_S (n i : nat) (payload : jsval) (e : env) (s : state) :
  retry_loop (S n) i payload e s =
    match attempt i payload e s with
    | (Normal (Return v), s1) => (Normal v, s1)
    | (Normal Next, s1) => retry_loop n (S i) payload e s1
    | (Throw err, s1) => (Throw err, s1)
    end.
Proof.
  simpl. unfold bind.
  destruct (attempt i payload e s) as [[[| v] | err] s1]; reflexivity.
Qed.

(** The loop from index [i] with [n] iterations left makes some number [k] of
    attempts, [1 <= k <= n], in the order of [schedule]; the first [k - 1]
    fail; it returns the text of attempt [k] if that one succeeds, and
    otherwise [k = n] and it throws the error of the last attempt. *)
Lemma retry_loop_spec (payload : jsval) (e : env) (n : nat) :
  forall (i : nat) (s : state),
  (i + n = MAX_RETRIES)%nat -> (0 < n)%nat ->
  let c := fst (retry_loop n i payload e s) in
  let s' := snd (retry_loop n i payload e s) in
  exists k : nat,
    (1 <= k <= n)%nat /\
    fetches s' = (fetches s + k)%nat /\
    same_store s s' /\
    actions (trace s') = actions (trace s) ++ schedule payload i k /\
    (forall j, (j < k - 1)%nat ->
               attempt_success (endpoint e (fetches s + j)%nat) = None) /\
    match attempt_success (endpoint e (fetches s + (k - 1))%nat) with
    | Some v => c = Normal v
    | None => k = n /\
              c = Throw (attempt_error (endpoint e (fetches s + (k - 1))%nat))
    end.
Proof.
  induction n as [| n IH]; intros i s Hin Hn; [lia |].
  assert (Hi : (i < MAX_RETRIES)%nat) by lia.
  pose proof (attempt_spec i payload e s Hi) as Ha. simpl in Ha.
  cbv zeta. rewrite retry_loop_S.
  destruct (attempt i payload e s) as [c1 s1]. simpl in Ha.
  destruct Ha as (Hf & Hst & Ha).
  destruct (attempt_success (endpoint e (fetches s))) as [v |] eqn:Hs.
  - destruct Ha as [-> Hact]. exists 1%nat. simpl.
    replace (fetches s + 0)%nat with (fetches s) by lia. rewrite Hs.
    repeat split; try lia; try apply Hst; trivial.
  - change (MAX_RETRIES - 1)%nat with 4%nat in Ha.
    destruct (Nat.eqb_spec i 4) as [Hi4 | Hi4].
    + destruct Ha as [-> Hact]. exists 1%nat. simpl.
      replace (fetches s + 0)%nat with (fetches s) by lia. rewrite Hs.
      unfold MAX_RETRIES in Hin.
      repeat split; try lia; try apply Hst; trivial.
    + destruct Ha as [-> Hact].
      unfold MAX_RETRIES in Hin, Hi.
      destruct (IH (S i) s1) as (k & Hk & Hfk & Hstk & Hacts & Hnone & Hlast);
        [unfold MAX_RETRIES; lia | lia |].
      exists (S k). rewrite Hf in *.
      replace (S k - 1)%nat with (S (k - 1)) by lia.
      replace (fetches s + S (k - 1))%nat with (S (fetches s) + (k - 1))%nat by lia.
      split; [lia |]. split; [lia |].
      split; [eapply same_store_trans; eauto |].
      split; [| split].
      * rewrite Hacts, Hact, schedule_succ by lia. rewrite <- app_assoc. reflexivity.
      * intros j Hj. destruct j as [| j].
        -- replace (fetches s + 0)%nat with (fetches s) by lia. exact Hs.
        -- replace (fetches s + S j)%nat with (S (fetches s) + j)%nat by lia.
           apply Hnone. lia.
      * destruct (attempt_success (endpoint e (S (fetches s) + (k - 1))%nat)).
        -- exact Hlast.
        -- destruct Hlast as [-> Hc]. split; [reflexivity | exact Hc].
Qed.

Lemma callGeminiApi_with_key (payload : jsval) (e : env) (s : state) :
  key_missing e = false ->
  callGeminiApi payload e s = retry_loop MAX_RETRIES 0 payload e s.
Proof.
  intros Hkey. unfold callGeminiApi, bind, ask. rewrite Hkey. reflexivity.
Qed.

Lemma callGeminiApi_without_key (payload : jsval) (e : env) (s : state) :
  key_missing e = true ->
  callGeminiApi payload e s = (Throw MissingCredential, s).
Proof.
  intros Hkey. unfold callGeminiApi, bind, ask. rewrite Hkey. reflexivity.
Qed.

(** The characterisation of the loop, for a whole call. *)
Lemma callGeminiApi_spec (payload : jsval) (e : env) (s : state) :
  key_missing e = false ->
  let c := fst (callGeminiApi payload e s) in
  let s' := snd (callGeminiApi payload e s) in
  exists k : nat,
    (1 <= k <= MAX_RETRIES)%nat /\
    fetches s' = (fetches s + k)%nat /\
    same_store s s' /\
    actions (trace s') = actions (trace s) ++ schedule payload 0 k /\
    (forall j, (j < k - 1)%nat ->
               attempt_success (endpoint e (fetches s + j)%nat) = None) /\
    match attempt_success (endpoint e (fetches s + (k - 1))%nat) with
    | Some v => c = Normal v
    | None => k = MAX_RETRIES /\
              c = Throw (attempt_error (endpoint e (fetches s + (k - 1))%nat))
    end.
Proof.
  intros Hkey. cbv zeta. rewrite callGeminiApi_with_key by exact Hkey.
  apply (retry_loop_spec payload e MAX_RETRIES 0 s); unfold MAX_RETRIES; lia.
Qed.

Lemma retryable_fails (o : fetch_outcome) :
  retryable o = true -> attempt_success o = None.
Proof.
  destruct o as [msg | r]; simpl; [reflexivity |].
  intros H. unfold ok.
  destruct (Z.leb_spec 500 (status r)); [| discriminate].
  destruct (Z.leb_spec (status r) 299); [lia |].
  rewrite andb_false_r. reflexivity.
Qed.

Lemma terminal_fails (o : fetch_outcome) :
  terminal o = true -> attempt_success o = None.
Proof.
  destruct o as [msg | r]; simpl; [reflexivity |].
  destruct (ok r); [| reflexivity].
  destruct (json r) as [v | msg]; [| reflexivity].
  destruct (truthy (extract_report v)); [discriminate | reflexivity].
Qed.

Lemma attempt_success_truthy (o : fetch_outcome) (v : jsval) :
  attempt_success o = Some v -> truthy v = true.
Proof.
  destruct o as [msg | r]; simpl; [discriminate |].
  destruct (ok r); [| discriminate].
  destruct (json r) as [body | msg]; [| discriminate].
  destruct (truthy (extract_report body)) eqn:Ht; [| discriminate].
  intros [= <-]. exact Ht.
Qed.

Lemma attempt_error_not_exhausted (o : fetch_outcome) :
  attempt_error o <> GenerationExhausted.
Proof.
  destruct o as [msg | r]; simpl; [discriminate |].
  destruct (ok r).
  - destruct (json r); discriminate.
  - unfold upstream_error, error_detail.
    destruct (nullish (response_json_or_empty r)); [discriminate |].
    destruct (to_string_throws (picked_detail (response_json_or_empty r) r));
      discriminate.
Qed.
(** ** Claims about the client *)

(** C1 (the code departs from the claim). The claim wants a terminal failure
    (a status below 500 that is not a success, or a success without generated
    text) to end the call at once. The [throw] for it sits inside the [try],
    so the [catch] of the same iteration takes it: when the first attempt
    fails terminally, the client logs, waits 1000 ms and sends a second
    request, and if that one succeeds the call returns its text. *)
Theorem C1_terminal_failure_is_retried (payload : jsval) (e : env) (s : state) :
  key_missing e = false ->
  terminal (endpoint e (fetches s)) = true ->
  let c := fst (callGeminiApi payload e s) in
  let s' := snd (callGeminiApi payload e s) in
  (2 <= fetches s' - fetches s)%nat /\
  (exists rest,
     actions (trace s') =
       actions (trace s) ++ [EvFetch payload; EvSleep 1000; EvFetch payload] ++ rest) /\
  (forall v, attempt_success (endpoint e (S (fetches s))) = Some v -> c = Normal v).
Proof.
  intros Hkey Hterm. cbv zeta.
  destruct (callGeminiApi_spec payload e s Hkey) as (k & Hk & Hf & _ & Hact & Hnone & Hlast).
  apply terminal_fails in Hterm.
  assert (Hk2 : (2 <= k)%nat).
  { destruct (Nat.eq_dec k 1%nat) as [-> |]; [| lia].
    simpl in Hlast. replace (fetches s + 0)%nat with (fetches s) in Hlast by lia.
    rewrite Hterm in Hlast. destruct Hlast as [Hmax _]. discriminate. }
  split; [lia |]. split.
  - destruct k as [| [| k]]; try lia.
    rewrite Hact, schedule_succ by lia.
    destruct k as [| k].
    + exists []. reflexivity.
    + rewrite schedule_succ by lia. eexists. reflexivity.
  - intros v Hv.
    destruct (Nat.eq_dec k 2%nat) as [-> |].
    + simpl in Hlast. replace (fetches s + 1)%nat with (S (fetches s)) in Hlast by lia.
      rewrite Hv in Hlast. exact Hlast.
    + specialize (Hnone 1%nat ltac:(lia)).
      replace (fetches s + 1)%nat with (S (fetches s)) in Hnone by lia. congruence.
Qed.

(** The endpoint answers 400 and then 200 with text: the call succeeds. *)
Lemma C1_terminal_failure_is_retried_witness :
  fst (callGeminiApi some_payload first_400_then_ok start) = Normal (JStr "looks fine") /\
  (2 <= fetches (snd (callGeminiApi some_payload first_400_then_ok start)) - fetches start)%nat.
Proof.
  destruct (C1_terminal_failure_is_retried some_payload first_400_then_ok start)
    as (Hn & _ & Hv); [reflexivity | reflexivity |].
  split; [apply Hv; reflexivity | exact Hn].
Defined.






Lemma schedule_head (payload : jsval) (i k : nat) :
  (1 <= k)%nat -> exists rest, schedule payload i k = EvFetch payload :: rest.
Proof.
  intros Hk. destruct k as [| [| k]]; [lia | exists []; reflexivity |].
  rewrite schedule_succ by lia. eexists. reflexivity.
Qed.

Lemma schedule_retry (payload : jsval) (j : nat) :
  forall i k, (j + 2 <= k)%nat ->
  exists before after,
    schedule payload i k =
      before ++ [EvFetch payload; EvSleep (backoff (i + j)); EvFetch payload] ++ after.
Proof.
  induction j as [| j IH]; intros i k Hk.
  - destruct k as [| k]; [lia |].
    rewrite schedule_succ by lia.
    destruct (schedule_head payload (S i) k) as [rest ->]; [lia |].
    exists [], rest. rewrite Nat.add_0_r. reflexivity.
  - destruct k as [| k]; [lia |].
    rewrite schedule_succ by lia.
    destruct (IH (S i) k) as (before & after & ->); [lia |].
    exists ([EvFetch payload; EvSleep (backoff i)] ++ before), after.
    replace (i + S j)%nat with (S i + j)%nat by lia.
    rewrite <- app_assoc. reflexivity.
Qed.

Lemma total_wait_app (t : list event) (l : list Z) :
  forall t', sleeps t' = sleeps t ++ l ->
  total_wait t' = total_wait t + fold_right Z.add 0 l.
Proof.
  intros t' H. unfold total_wait. rewrite H. clear H.
  induction (sleeps t) as [| x xs IH]; cbn [fold_right app]; lia.
Qed.

(** C3. A call makes between 1 and 5 attempts. Its requests and waits follow
    [schedule]: attempt [j] (from 0), when it is not the last, is followed by
    a wait of [2^j * 1000] ms (1000, 2000, 4000, 8000) and then by the next
    attempt; nothing follows the last attempt; fewer than 5 attempts are made
    only when the call returns. A retryable failure at index [j < 4], after
    retryable failures only, is followed by that wait and a retry. If
    attempts 1 to 4 fail retryably and attempt 5 answers with a non-empty
    text, the call returns that text after waiting 15000 ms in total. *)
Theorem C3_bounded_backoff (payload : jsval) (e : env) (s : state) :
  key_missing e = false ->
  let c := fst (callGeminiApi payload e s) in
  let s' := snd (callGeminiApi payload e s) in
  map backoff [0; 1; 2; 3]%nat = [1000; 2000; 4000; 8000] /\
  (exists k : nat,
     (1 <= k <= 5)%nat /\
     fetches s' = (fetches s + k)%nat /\
     actions (trace s') = actions (trace s) ++ schedule payload 0 k /\
     sleeps (trace s') = sleeps (trace s) ++ map backoff (seq 0 (k - 1)) /\
     (forall j, (j < k - 1)%nat ->
                attempt_success (endpoint e (fetches s + j)%nat) = None) /\
     ((k < 5)%nat -> exists v, c = Normal v)) /\
  (forall j, (j < 4)%nat ->
     (forall i, (i <= j)%nat -> retryable (endpoint e (fetches s + i)%nat) = true) ->
     exists before after,
       actions (trace s') =
         before ++ [EvFetch payload; EvSleep (backoff j); EvFetch payload] ++ after) /\
  (forall r body text,
     (forall j, (j < 4)%nat -> retryable (endpoint e (fetches s + j)%nat) = true) ->
     endpoint e (fetches s + 4)%nat = FetchResponse r ->
     ok r = true -> json r = JsonValue body ->
     extract_report body = JStr text -> text <> EmptyString ->
     c = Normal (JStr text) /\
     fetches s' = (fetches s + 5)%nat /\
     sleeps (trace s') = sleeps (trace s) ++ [1000; 2000; 4000; 8000] /\
     total_wait (trace s') = total_wait (trace s) + 15000).
Proof.
  intros Hkey. cbv zeta.
  destruct (callGeminiApi_spec payload e s Hkey)
    as (k & Hk & Hf & _ & Hact & Hnone & Hlast).
  unfold MAX_RETRIES in Hk.
  assert (Hsl : sleeps (trace (snd (callGeminiApi payload e s))) =
                sleeps (trace s) ++ map backoff (seq 0 (k - 1))).
  { rewrite <- (sleeps_actions (trace (snd _))), Hact, sleeps_app,
      sleeps_actions, sleeps_schedule. reflexivity. }
  assert (Hreach : forall j,
            (forall i, (i <= j)%nat ->
                       attempt_success (endpoint e (fetches s + i)%nat) = None) ->
            (j < 4)%nat -> (j + 2 <= k)%nat).
  { intros j Hfail Hj.
    destruct (le_lt_dec (j + 2) k) as [| Hlt]; [assumption | exfalso].
    rewrite (Hfail (k - 1)%nat) in Hlast by lia.
    destruct Hlast as [Hmax _]. unfold MAX_RETRIES in Hmax. lia. }
  split; [reflexivity |]. split; [| split].
  - exists k. repeat split; try lia; trivial.
    intros Hlt.
    destruct (attempt_success (endpoint e (fetches s + (k - 1))%nat)) as [v |].
    + exists v. exact Hlast.
    + destruct Hlast as [Hmax _]. unfold MAX_RETRIES in Hmax. lia.
  - intros j Hj Hretry.
    assert (Hjk : (j + 2 <= k)%nat).
    { apply Hreach; [| exact Hj]. intros i Hi. apply retryable_fails, Hretry, Hi. }
    destruct (schedule_retry payload j 0 k Hjk) as (before & after & Hs).
    exists (actions (trace s) ++ before), after.
    rewrite Hact, Hs, <- app_assoc. reflexivity.
  - intros r body text Hretry Hr Hok Hjson Htext Hne.
    assert (Hk5 : k = 5%nat).
    { assert ((3 + 2 <= k)%nat); [| lia].
      apply Hreach; [| lia]. intros i Hi. apply retryable_fails, Hretry. lia. }
    subst k. simpl in Hlast. rewrite Hr in Hlast. simpl in Hlast.
    rewrite Hok, Hjson, Htext in Hlast.
    destruct text as [| ch text]; [congruence |]. simpl in Hlast.
    split; [exact Hlast |]. split; [exact Hf |]. split; [exact Hsl |].
    rewrite (total_wait_app (trace s) [1000; 2000; 4000; 8000]);
      [reflexivity | exact Hsl].
Qed.

Lemma C3_bounded_backoff_witness :
  fst (callGeminiApi some_payload fifth_time_lucky start) = Normal (JStr "looks fine") /\
  total_wait (trace (snd (callGeminiApi some_payload fifth_time_lucky start))) = 15000.
Proof.
  destruct (C3_bounded_backoff some_payload fifth_time_lucky start)
    as (_ & _ & _ & H); [reflexivity |].
  destruct (H {| status := 200; statusText := "OK";
                 json := JsonValue
                   (JObj [("candidates",
                           JArr [JObj [("content",
                                        JObj [("parts",
                                               JArr [JObj [("text", JStr "looks fine")]])])]])]) |}
              (JObj [("candidates",
                      JArr [JObj [("content",
                                   JObj [("parts",
                                          JArr [JObj [("text", JStr "looks fine")]])])]])])
              "looks fine")
    as (Hc & _ & _ & Hw);
    [ intros [| [| [| [| j]]]] Hj; try reflexivity; lia
    | reflexivity | reflexivity | reflexivity | reflexivity | discriminate | ].
  split; [exact Hc | exact Hw].
Defined.

(** A field missing anywhere on the path reads as [undefined]. *)
Example extract_report_absent :
  extract_report (JObj []) = JUndefined /\
  extract_report (JObj [("candidates", JArr [])]) = JUndefined /\
  extract_report (JObj [("candidates", JArr [JObj [("content", JNull)]])]) = JUndefined.
Proof. repeat split. Qed.

(** C6. Whatever a call returns is truthy: it is not the empty string, nor
    [undefined], nor [null], and it is the text some attempt of the call
    generated. An attempt whose success response has no text at
    [candidates[0].content.parts[0].text], or an empty one, throws in its
    [try] block and does not return: the attempt counts as failed. *)
Theorem C6_result_is_non_empty (payload : jsval) (e : env) (s : state) :
  (forall v, fst (callGeminiApi payload e s) = Normal v ->
     truthy v = true /\ v <> JStr EmptyString /\ v <> JUndefined /\ v <> JNull /\
     exists j, (j < MAX_RETRIES)%nat /\
               attempt_success (endpoint e (fetches s + j)%nat) = Some v) /\
  (forall i r body,
     (i < MAX_RETRIES)%nat ->
     endpoint e (fetches s) = FetchResponse r ->
     ok r = true -> json r = JsonValue body ->
     extract_report body = JUndefined \/ extract_report body = JNull \/
       extract_report body = JStr EmptyString ->
     fst (attempt_try i payload e s) = Throw EmptyGeneration /\
     forall v, fst (attempt i payload e s) <> Normal (Return v)).
Proof.
  split.
  - intros v Hv.
    destruct (key_missing e) eqn:Hkey.
    { rewrite callGeminiApi_without_key in Hv by exact Hkey. discriminate. }
    destruct (callGeminiApi_spec payload e s Hkey)
      as (k & Hk & _ & _ & _ & _ & Hlast).
    destruct (attempt_success (endpoint e (fetches s + (k - 1))%nat)) as [w |] eqn:Hs.
    + rewrite Hv in Hlast. injection Hlast as <-.
      pose proof (attempt_success_truthy _ _ Hs) as Ht.
      split; [exact Ht |].
      repeat split; try (intros ->; discriminate).
      exists (k - 1)%nat. split; [lia | exact Hs].
    + destruct Hlast as [_ Hc]. rewrite Hv in Hc. discriminate.
  - intros i r body Hi Hr Hok Hjson Hempty.
    assert (Hfalsy : truthy (extract_report body) = false).
    { destruct Hempty as [-> | [-> | ->]]; reflexivity. }
    split.
    + unfold attempt_try, bind, fetch, response_json. rewrite Hr. simpl.
      rewrite Hok, Hjson. simpl. unfold bind, ret. rewrite Hfalsy. reflexivity.
    + intros v Hv.
      pose proof (attempt_spec i payload e s Hi) as Ha. simpl in Ha.
      destruct Ha as (_ & _ & Ha). rewrite Hr in Ha. simpl in Ha.
      rewrite Hok, Hjson, Hfalsy in Ha.
      destruct (i =? 4)%nat; destruct Ha as [Hc _]; congruence.
Qed.

Lemma C6_result_is_non_empty_witness :
  truthy (JStr "looks fine") = true /\
  fst (attempt_try 0 some_payload empty_text_then_ok start) = Throw EmptyGeneration.
Proof.
  destruct (C6_result_is_non_empty some_payload first_400_then_ok start) as [H _].
  destruct (C6_result_is_non_empty some_payload empty_text_then_ok start) as [_ H'].
  split.
  - apply (H (JStr "looks fine")). reflexivity.
  - eapply (H' 0%nat); [unfold MAX_RETRIES; lia | reflexivity | reflexivity
                       | reflexivity | right; right; reflexivity].
Defined.

(** ** The routes: upload, handler, release *)

Lemma includes_In (l : list string) (x : string) : includes l x = true <-> In x l.
Proof.
  unfold includes. rewrite existsb_exists. split.
  - intros (y & Hy & Heq). apply String.eqb_eq in Heq. subst. exact Hy.
  - intros Hx. exists x. split; [exact Hx | apply String.eqb_refl].
Qed.

Lemma type_allowed_In (file : candidate) :
  type_allowed file = true <->
  In (mimetype file) allowedMimeTypes \/
  In (toLowerCase (extname (originalname file))) allowedExtensions.
Proof.
  unfold type_allowed. rewrite orb_true_iff, !includes_In. reflexivity.
Qed.

Lemma uploader_spec (req : request) (e : env) (s : state) :
  uploader req e s =
    match file_part req with
    | None => (Normal (UploadDone None), s)
    | Some file =>
        let s1 := emit (received file) s in
        if type_allowed file then
          if size file <=? fileSize
          then (Normal (UploadDone (Some (stored_as req file))),
                set_uploads (<[path (stored_as req file) := content file]> (uploads s1)) s1)
          else (Normal (UploadFailed FileTooLarge), aborted req file e s1)
        else (Normal (UploadFailed InvalidFileType), s1)
    end.
Proof.
  unfold uploader. destruct (file_part req) as [file |]; [| reflexivity].
  unfold aborted. cbv [bind fileFilter log modify ret multer_remove ask]. simpl.
  destruct (type_allowed file); [| reflexivity].
  destruct (size file <=? fileSize); [reflexivity |].
  destruct (unlink_fault e ("uploads/" +:+ tmp_name req)); reflexivity.
Qed.

Lemma uploader_done (req : request) (e : env) (s : state) (f : req_file) :
  fst (uploader req e s) = Normal (UploadDone (Some f)) ->
  exists file,
    file_part req = Some file /\ f = stored_as req file /\
    type_allowed file = true /\ size file <= fileSize /\
    snd (uploader req e s) =
      set_uploads (<[path f := content file]> (uploads s)) (emit (received file) s).
Proof.
  rewrite uploader_spec. destruct (file_part req) as [file |]; [| discriminate].
  cbv zeta. destruct (type_allowed file) eqn:Htype; [| discriminate].
  destruct (Z.leb_spec (size file) fileSize); [| discriminate].
  simpl. intros [= <-]. exists file.
  split; [reflexivity |]. split; [reflexivity |]. split; [exact Htype |].
  split; [assumption | reflexivity].
Qed.

Lemma deleteTempFile_spec (p : string) (e : env) (s : state) :
  deleteTempFile p e s =
    if String.eqb p EmptyString then (Normal tt, s)
    else
      match uploads s !! p with
      | None => (Normal tt, s)
      | Some _ =>
          let s1 := emit (EvUnlink p) s in
          match unlink_fault e p with
          | Some err => (Normal tt, emit (EvLog (LogUnlinkError err)) s1)
          | None => (Normal tt, set_uploads (delete p (uploads s1)) s1)
          end
      end.
Proof.
  unfold deleteTempFile. destruct (String.eqb p EmptyString); [reflexivity |].
  cbv [bind existsSync get ret unlink modify ask log].
  destruct (uploads s !! p); simpl; [| reflexivity].
  destruct (unlink_fault e p); reflexivity.
Qed.

Lemma deleteTempFile_normal (p : string) (e : env) (s : state) :
  fst (deleteTempFile p e s) = Normal tt.
Proof.
  rewrite deleteTempFile_spec.
  destruct (String.eqb p EmptyString); [reflexivity |].
  destruct (uploads s !! p); [| reflexivity].
  cbv zeta. destruct (unlink_fault e p); reflexivity.
Qed.

Lemma unlinks_app (q : string) (t1 t2 : list event) :
  unlinks q (t1 ++ t2) = (unlinks q t1 + unlinks q t2)%nat.
Proof. unfold unlinks. rewrite List.filter_app, length_app. reflexivity. Qed.

Lemma unlinks_actions (q : string) (t : list event) :
  unlinks q (actions t) = unlinks q t.
Proof.
  unfold unlinks, actions.
  induction t as [| ev t IH]; [reflexivity |].
  destruct ev as [| | | | p |]; simpl; rewrite ?IH; try reflexivity.
  destruct (String.eqb q p); simpl; rewrite IH; reflexivity.
Qed.

Lemma unlinks_schedule (q : string) (payload : jsval) (i k : nat) :
  unlinks q (schedule payload i k) = 0%nat.
Proof.
  unfold schedule. generalize (seq i (k - 1)) as l.
  induction l as [| j l IH]; [reflexivity |]. exact IH.
Qed.


Lemma callGeminiApi_frame (payload : jsval) (e : env) (s : state) :
  let s' := snd (callGeminiApi payload e s) in
  same_store s s' /\ keeps_files s s' /\
  (key_missing e = true -> s' = s).
Proof.
  cbv zeta. destruct (key_missing e) eqn:Hkey.
  - rewrite callGeminiApi_without_key by exact Hkey. simpl.
    repeat split.
  - destruct (callGeminiApi_spec payload e s Hkey) as (k & _ & _ & Hst & Hact & _).
    split; [exact Hst |]. split; [| discriminate].
    split; [apply Hst |].
    intros q. rewrite <- (unlinks_actions q (trace (snd _))), Hact, unlinks_app,
      unlinks_actions, unlinks_schedule. lia.
Qed.

(** The [try] block for a request with a stored file and a prompt. *)
Lemma analyze_try_spec (f : req_file) (p : option string) (e : env) (s : state) :
  truthy (prompt_value p) = true ->
  uploads s !! path f = Some (content (upload f)) ->
  let s1 := emit (EvReadFile (path f)) s in
  let g := callGeminiApi (request_payload f p) e s1 in
  analyze_try (Some f) p e s =
    match fst g with
    | Throw err => (Throw err, snd g)
    | Normal generated =>
        let s2 := emit (EvQuery insert_sql) (snd g) in
        match store_fault e (queries (snd g)) with
        | Some message => (Throw (Foreign message), count_query s2)
        | None =>
            let row := created f (default EmptyString p) generated e (snd g) in
            (Normal (success_201 row (default EmptyString p) generated),
             count_query
               (set_reviews (<[next_id s2 := row]> (reviews s2)) (next_id s2 + 1) s2))
        end
    end.
Proof.
  intros Hp Hfile. cbv zeta. unfold analyze_try. rewrite Hp. simpl.
  unfold readFileSync. cbv [bind modify get].
  simpl. rewrite Hfile. cbv [ret]. fold (request_payload f p).
  destruct (callGeminiApi (request_payload f p) e (emit (EvReadFile (path f)) s))
    as [[generated | err] s2]; simpl; [| reflexivity].
  unfold insert_review, pool_query. fold insert_sql. simpl.
  destruct (store_fault e (queries s2)); reflexivity.
Qed.



(** The handler answers with what its [try] block returned, or with the
    generic 500 if that block threw; the [finally] block then runs
    [deleteTempFile] and changes nothing in the answer. *)
Lemma analyze_handler_spec (file : option req_file) (p : option string)
  (e : env) (s : state) :
  let inner := analyze_try file p e s in
  let s1 := match fst inner with
            | Normal _ => snd inner
            | Throw err => emit (EvLog (LogAnalysisError err)) (snd inner)
            end in
  analyze_handler file p e s =
    (Normal (match fst inner with
             | Normal resp => resp
             | Throw _ => generic_500
             end),
     match file with
     | Some f => snd (deleteTempFile (path f) e s1)
     | None => s1
     end).
Proof.
  cbv zeta. unfold analyze_handler, try_finally, try_catch.
  destruct (analyze_try file p e s) as [[resp | err] s1]; simpl;
    cbv [bind log modify ret]; destruct file as [f |]; try reflexivity.
  - pose proof (deleteTempFile_normal (path f) e s1) as Hd.
    destruct (deleteTempFile (path f) e s1) as [[[] | ?] s2]; [reflexivity | discriminate].
  - pose proof (deleteTempFile_normal (path f) e (emit (EvLog (LogAnalysisError err)) s1)) as Hd.
    destruct (deleteTempFile (path f) e (emit (EvLog (LogAnalysisError err)) s1))
      as [[[] | ?] s2]; [reflexivity | discriminate].
Qed.

Lemma analyze_route_spec (req : request) (e : env) (s : state) :
  analyze_route req e s =
    match fst (uploader req e s) with
    | Normal (UploadFailed MulterLimitFileSize) =>
        (Normal (json_error 400 "File upload error: File too large"), snd (uploader req e s))
    | Normal (UploadFailed (FilterError message)) =>
        (Normal (json_error 400 message), snd (uploader req e s))
    | Normal (UploadDone file) =>
        analyze_handler file (prompt req) e (snd (uploader req e s))
    | Throw err => (Throw err, snd (uploader req e s))
    end.
Proof.
  unfold analyze_route, bind.
  destruct (uploader req e s) as [[[[message |] | file] | err] s0]; reflexivity.
Qed.

(** ** Claims about the upload gate *)

(** C4, as stated, fails: a file of 6 MiB whose MIME type and extension are
    both outside the lists is refused by the [fileFilter], with the error of
    an invalid type, before multer counts a byte; it is not refused for its
    size. *)
Lemma C4_oversized_wrong_type_is_invalid_type :
  5 * 1024 * 1024 < size big_png /\
  fst (uploader (upload_of big_png) (offline) start) =
    Normal (UploadFailed InvalidFileType) /\
  fst (uploader (upload_of big_png) (offline) start) <>
    Normal (UploadFailed FileTooLarge).
Proof.
  split; [reflexivity |]. split; [vm_compute; reflexivity | vm_compute; discriminate].
Qed.

(** C4 (amended). A file is accepted if and only if its size is at most
    5 MiB and its MIME type is in the MIME list or its lower-cased extension
    is in the extension list. When neither the MIME type nor the extension
    matches, it fails with [InvalidFileType], whatever its size; when the
    type test passes and the size exceeds 5 MiB, it fails with
    [FileTooLarge]. After either failure the route answers 400 and no later
    stage has run: no read, no request, no query, the table untouched. All
    that has happened is the console line of the filter and, for a file too
    large, multer writing the file up to the limit and unlinking it. *)
Theorem C4_upload_gate (file : candidate) (p : option string) (t : string)
  (e : env) (s : state) :
  let req := {| file_part := Some file; prompt := p; tmp_name := t |} in
  let up := fst (uploader req e s) in
  let type_ok :=
    In (mimetype file) allowedMimeTypes \/
    In (toLowerCase (extname (originalname file))) allowedExtensions in
  ((exists f, up = Normal (UploadDone (Some f))) <->
     size file <= 5 * 1024 * 1024 /\ type_ok) /\
  (~ type_ok -> up = Normal (UploadFailed InvalidFileType)) /\
  (type_ok -> 5 * 1024 * 1024 < size file -> up = Normal (UploadFailed FileTooLarge)) /\
  (forall err, up = Normal (UploadFailed err) ->
     let s' := snd (analyze_route req e s) in
     (exists message, fst (analyze_route req e s) = Normal (json_error 400 message)) /\
     s' = snd (uploader req e s) /\
     fetches s' = fetches s /\ queries s' = queries s /\
     reviews s' = reviews s /\ next_id s' = next_id s /\
     match err with
     | FilterError _ =>
         s' = emit (received file) s /\ actions (trace s') = actions (trace s)
     | MulterLimitFileSize =>
         s' = aborted req file e (emit (received file) s) /\
         actions (trace s') = actions (trace s) ++ [EvUnlink ("uploads/" +:+ t)]
     end).
Proof.
  cbv zeta. rewrite <- type_allowed_In.
  rewrite analyze_route_spec, uploader_spec. cbn [file_part].
  change (5 * 1024 * 1024) with fileSize.
  destruct (type_allowed file) eqn:Htype.
  - destruct (Z.leb_spec (size file) fileSize) as [Hle | Hgt]; cbn [fst snd].
    + split; [split; [intros _; split; [exact Hle | reflexivity] | intros _; eauto] |].
      split; [intros Hn; exfalso; apply Hn; reflexivity |].
      split; [intros _ Hgt; lia | intros err; discriminate].
    + split; [split; [intros [f Hf]; discriminate | intros [Hle _]; lia] |].
      split; [intros Hn; exfalso; apply Hn; reflexivity |].
      split; [reflexivity |]. intros err [= <-]. cbn [fst snd].
      split; [eauto |]. split; [reflexivity |].
      unfold aborted. cbn [path stored_as tmp_name].
      destruct (unlink_fault e ("uploads/" +:+ t)); simpl;
        rewrite !actions_app; simpl; rewrite !app_nil_r; repeat split.
  - cbn [fst snd].
    split; [split; [intros [f Hf]; discriminate | intros [_ Hf]; discriminate] |].
    split; [reflexivity |].
    split; [intros Hf; discriminate |]. intros err [= <-]. cbn [fst snd].
    split; [eauto |]. simpl. rewrite actions_app. simpl. rewrite app_nil_r.
    repeat split.
Qed.

Lemma C4_upload_gate_witness :
  (exists f, fst (uploader (upload_of small_py) (offline) start) =
             Normal (UploadDone (Some f))) /\
  fst (uploader (upload_of huge_py) (offline) start) =
    Normal (UploadFailed FileTooLarge).
Proof.
  destruct (C4_upload_gate small_py (Some "Check for bugs") "3f2a9c"
              (offline) start) as [Hacc _].
  destruct (C4_upload_gate huge_py (Some "Check for bugs") "3f2a9c"
              (offline) start) as (_ & _ & Hbig & _).
  split.
  - apply Hacc. split; [vm_compute; discriminate |]. right. vm_compute. tauto.
  - apply Hbig; [right; vm_compute; tauto | vm_compute; reflexivity].
Defined.

(** C10. [application/octet-stream] is in the MIME list, so a file declaring
    it passes the type test of the [fileFilter] whatever its name, and the
    gate stores it whenever its size is at most 5 MiB. *)
Theorem C10_octet_stream_passes (file : candidate) (p : option string) (t : string)
  (e : env) (s : state) :
  mimetype file = "application/octet-stream" ->
  In "application/octet-stream" allowedMimeTypes /\
  type_allowed file = true /\
  fst (fileFilter file e s) = Normal CbAccept /\
  (size file <= 5 * 1024 * 1024 ->
   fst (uploader {| file_part := Some file; prompt := p; tmp_name := t |} e s) =
     Normal (UploadDone (Some {| path := "uploads/" +:+ t; upload := file |}))).
Proof.
  intros Hmime.
  assert (Hin : In "application/octet-stream" allowedMimeTypes).
  { apply includes_In. reflexivity. }
  assert (Htype : type_allowed file = true).
  { apply type_allowed_In. left. rewrite Hmime. exact Hin. }
  split; [exact Hin |]. split; [exact Htype |]. split.
  - unfold fileFilter. cbv [bind log modify ret]. rewrite Htype. reflexivity.
  - intros Hsize. rewrite uploader_spec. simpl. rewrite Htype.
    change (5 * 1024 * 1024) with fileSize in Hsize.
    destruct (Z.leb_spec (size file) fileSize); [reflexivity | lia].
Qed.

Lemma C10_octet_stream_passes_witness :
  fst (uploader (upload_of binary_blob) (offline) start) =
    Normal (UploadDone (Some {| path := "uploads/3f2a9c"; upload := binary_blob |})).
Proof.
  apply (C10_octet_stream_passes binary_blob (Some "Check for bugs") "3f2a9c"
           (offline) start);
    [vm_compute; reflexivity | vm_compute; discriminate].
Defined.



Lemma deleteTempFile_store (p : string) (e : env) (s : state) :
  let s' := snd (deleteTempFile p e s) in
  reviews s' = reviews s /\ fetches s' = fetches s /\
  sleeps (trace s') = sleeps (trace s).
Proof.
  cbv zeta. rewrite deleteTempFile_spec.
  destruct (String.eqb p EmptyString); [repeat split |].
  destruct (uploads s !! p); [| repeat split].
  cbv zeta. destruct (unlink_fault e p); simpl;
    rewrite ?sleeps_app; simpl; rewrite ?app_nil_r; repeat split.
Qed.

(** A request whose file was stored and whose prompt is not empty: the answer
    is 201 when the generation returns and the insert goes through, and the
    generic 500 otherwise; a review is recorded in the first case only. *)
Lemma analyze_route_accepted (req : request) (e : env) (s : state) (f : req_file) :
  fst (uploader req e s) = Normal (UploadDone (Some f)) ->
  truthy (prompt_value (prompt req)) = true ->
  let userPrompt := default EmptyString (prompt req) in
  let s1 := emit (EvReadFile (path f)) (snd (uploader req e s)) in
  let g := callGeminiApi (request_payload f (prompt req)) e s1 in
  let s' := snd (analyze_route req e s) in
  fetches s1 = fetches s /\ sleeps (trace s1) = sleeps (trace s) /\
  fetches s' = fetches (snd g) /\ sleeps (trace s') = sleeps (trace (snd g)) /\
  match fst g with
  | Throw _ =>
      fst (analyze_route req e s) = Normal generic_500 /\ reviews s' = reviews s
  | Normal generated =>
      match store_fault e (queries s) with
      | Some _ =>
          fst (analyze_route req e s) = Normal generic_500 /\ reviews s' = reviews s
      | None =>
          let row := created f userPrompt generated e (snd g) in
          fst (analyze_route req e s) = Normal (success_201 row userPrompt generated) /\
          reviews s' = <[next_id s := row]> (reviews s)
      end
  end.
Proof.
  intros Hup Hp. cbv zeta.
  destruct (uploader_done req e s f Hup) as (file & Hpart & Hf & _ & _ & Hs0).
  rewrite analyze_route_spec, Hup, analyze_handler_spec. cbv zeta.
  assert (Hfile : uploads (snd (uploader req e s)) !! path f = Some (content (upload f))).
  { rewrite Hs0, Hf. simpl. apply lookup_insert_eq. }
  rewrite (analyze_try_spec f (prompt req) e _ Hp Hfile). cbv zeta.
  pose proof (callGeminiApi_frame (request_payload f (prompt req)) e
                (emit (EvReadFile (path f)) (snd (uploader req e s))))
    as ((_ & Hrev & Hnext & Hq) & _ & _).
  simpl in Hrev, Hnext, Hq.
  assert (Hq0 : queries (snd (uploader req e s)) = queries s) by (rewrite Hs0; reflexivity).
  assert (Hr0 : reviews (snd (uploader req e s)) = reviews s) by (rewrite Hs0; reflexivity).
  assert (Hn0 : next_id (snd (uploader req e s)) = next_id s) by (rewrite Hs0; reflexivity).
  split; [rewrite Hs0; reflexivity |].
  split; [rewrite Hs0; simpl; rewrite !sleeps_app; simpl; rewrite !app_nil_r; reflexivity |].
  destruct (callGeminiApi (request_payload f (prompt req)) e
              (emit (EvReadFile (path f)) (snd (uploader req e s))))
    as [[generated | err] s2]; simpl in *.
  - rewrite Hq, Hq0. destruct (store_fault e (queries s)) as [message |]; simpl.
    + match goal with
      | |- context [deleteTempFile ?p e ?st] =>
          destruct (deleteTempFile_store p e st) as (Hr & Hfe & Hsl)
      end.
      rewrite Hr, Hfe, Hsl. simpl. rewrite !sleeps_app. simpl. rewrite !app_nil_r.
      repeat split. congruence.
    + match goal with
      | |- context [deleteTempFile ?p e ?st] =>
          destruct (deleteTempFile_store p e st) as (Hr & Hfe & Hsl)
      end.
      rewrite Hr, Hfe, Hsl. simpl. rewrite !sleeps_app. simpl. rewrite !app_nil_r.
      repeat split. rewrite Hnext, Hn0, Hrev, Hr0. reflexivity.
  - match goal with
    | |- context [deleteTempFile ?p e ?st] =>
        destruct (deleteTempFile_store p e st) as (Hr & Hfe & Hsl)
    end.
    rewrite Hr, Hfe, Hsl. simpl. rewrite !sleeps_app. simpl. rewrite !app_nil_r.
    repeat split. congruence.
Qed.


(** C7. Without a key (unset, or empty) every call of the client throws the
    error of the missing key with the state untouched: no request sent, no
    wait, no console line, no second attempt. The route turns it into the
    generic answer, whose code is 500. *)
Theorem C7_missing_credential (e : env) :
  key_missing e = true ->
  (forall payload s, callGeminiApi payload e s = (Throw MissingCredential, s)) /\
  (forall req s f,
     fst (uploader req e s) = Normal (UploadDone (Some f)) ->
     truthy (prompt_value (prompt req)) = true ->
     fst (analyze_route req e s) = Normal generic_500 /\
     code generic_500 = 500 /\
     fetches (snd (analyze_route req e s)) = fetches s /\
     sleeps (trace (snd (analyze_route req e s))) = sleeps (trace s)).
Proof.
  intros Hkey. split.
  - intros payload s. apply callGeminiApi_without_key. exact Hkey.
  - intros req s f Hup Hp.
    destruct (analyze_route_accepted req e s f Hup Hp) as (Hf1 & Hs1 & Hf & Hs & Hr).
    rewrite callGeminiApi_without_key in Hf, Hs, Hr by exact Hkey. simpl in Hf, Hs, Hr.
    destruct Hr as [Hr _].
    split; [exact Hr |]. split; [reflexivity |].
    split; [rewrite Hf; exact Hf1 | rewrite Hs; exact Hs1].
Qed.

Lemma C7_missing_credential_witness :
  callGeminiApi some_payload no_key start = (Throw MissingCredential, start) /\
  fst (analyze_route (upload_of small_py) no_key start) = Normal generic_500.
Proof.
  destruct (C7_missing_credential no_key) as [Hcall Hroute]; [reflexivity |].
  split; [apply Hcall |].
  apply (Hroute (upload_of small_py) start (stored_as (upload_of small_py) small_py));
    vm_compute; reflexivity.
Defined.

(** C8. For a request with a stored file and a prompt, everything that
    throws in the [try] block of the handler ends in the same answer, code
    500 and the body [{error: "An internal server error occurred during the
    analysis."}], which carries nothing of the error: a missing key, a
    generation in which no attempt succeeds, a failed insert (after which no
    review exists and no success is reported). The only other answer is the
    201, and it is sent only with a key, a successful insert and the row in
    the table. *)
Theorem C8_errors_become_generic_500 (req : request) (e : env) (s : state)
  (f : req_file) :
  fst (uploader req e s) = Normal (UploadDone (Some f)) ->
  truthy (prompt_value (prompt req)) = true ->
  let r := fst (analyze_route req e s) in
  let s' := snd (analyze_route req e s) in
  generic_500 =
    {| code := 500;
       body := Some (JObj [("error",
                            JStr "An internal server error occurred during the analysis.")]) |} /\
  (key_missing e = true -> r = Normal generic_500) /\
  ((forall j, (j < MAX_RETRIES)%nat ->
              attempt_success (endpoint e (fetches s + j)%nat) = None) ->
   r = Normal generic_500) /\
  (forall message, store_fault e (queries s) = Some message ->
                   r = Normal generic_500 /\ reviews s' = reviews s) /\
  (forall err,
     fst (analyze_try (Some f) (prompt req) e (snd (uploader req e s))) = Throw err ->
     r = Normal generic_500) /\
  (r = Normal generic_500 \/
   exists row generated,
     r = Normal (success_201 row (default EmptyString (prompt req)) generated) /\
     key_missing e = false /\ store_fault e (queries s) = None /\
     reviews s' !! next_id s = Some row /\ report row = generated).
Proof.
  intros Hup Hp. cbv zeta.
  destruct (analyze_route_accepted req e s f Hup Hp) as (Hf1 & _ & _ & _ & Hr).
  cbv zeta in Hr.
  set (s1 := emit (EvReadFile (path f)) (snd (uploader req e s))) in *.
  set (payload := request_payload f (prompt req)) in *.
  split; [reflexivity |]. split; [| split; [| split; [| split]]].
  - intros Hkey. rewrite callGeminiApi_without_key in Hr by exact Hkey. apply Hr.
  - intros Hnone.
    destruct (key_missing e) eqn:Hkey.
    { rewrite callGeminiApi_without_key in Hr by exact Hkey. apply Hr. }
    destruct (callGeminiApi_spec payload e s1 Hkey) as (k & Hk & _ & _ & _ & _ & Hlast).
    rewrite Hf1, Hnone in Hlast by lia.
    destruct Hlast as [_ Hc]. rewrite Hc in Hr. apply Hr.
  - intros message Hfault. rewrite Hfault in Hr.
    destruct (fst (callGeminiApi payload e s1)); exact Hr.
  - intros err Herr.
    rewrite analyze_route_spec, Hup, analyze_handler_spec. cbv zeta.
    rewrite Herr. reflexivity.
  - destruct (fst (callGeminiApi payload e s1)) as [generated | err] eqn:Hg;
      [| left; apply Hr].
    destruct (store_fault e (queries s)) as [message |] eqn:Hfault; [left; apply Hr |].
    right. cbv zeta in Hr. destruct Hr as [Hr Hrev].
    eexists _, generated. split; [exact Hr |].
    split.
    + destruct (key_missing e) eqn:Hkey; [| reflexivity].
      rewrite callGeminiApi_without_key in Hg by exact Hkey. discriminate.
    + split; [reflexivity |]. split; [| reflexivity].
      rewrite Hrev. apply lookup_insert_eq.
Qed.

Lemma C8_errors_become_generic_500_witness :
  fst (analyze_route (upload_of small_py) store_down start) = Normal generic_500 /\
  reviews (snd (analyze_route (upload_of small_py) store_down start)) = reviews start /\
  fst (analyze_route (upload_of small_py) always_503 start) = Normal generic_500.
Proof.
  destruct (C8_errors_become_generic_500 (upload_of small_py) store_down start
              (stored_as (upload_of small_py) small_py))
    as (_ & _ & _ & Hstore & _); [vm_compute; reflexivity | vm_compute; reflexivity |].
  destruct (C8_errors_become_generic_500 (upload_of small_py) always_503 start
              (stored_as (upload_of small_py) small_py))
    as (_ & _ & Hgen & _); [vm_compute; reflexivity | vm_compute; reflexivity |].
  destruct (Hstore "connection refused") as [Hr Hrev]; [reflexivity |].
  split; [exact Hr |]. split; [exact Hrev |].
  apply Hgen. intros j _. reflexivity.
Defined.



(** C9. While the store answers: deleting an identifier that has no row
    gives 404 and leaves the table as it is; deleting one that has a row
    gives 204 without a body and removes that row and no other, so that
    reading the same identifier afterwards gives 404. *)
Theorem C9_delete_then_get (key : Z) (e : env) (s : state) :
  store_fault e (queries s) = None ->
  let r := fst (delete_report key e s) in
  let s' := snd (delete_report key e s) in
  code (not_found key) = 404 /\
  (reviews s !! key = None ->
     r = Normal (not_found key) /\ reviews s' = reviews s) /\
  (is_Some (reviews s !! key) ->
     r = Normal {| code := 204; body := None |} /\
     reviews s' !! key = None /\
     (forall other, other <> key -> reviews s' !! other = reviews s !! other) /\
     (store_fault e (queries s') = None ->
      fst (get_report key e s') = Normal (not_found key))).
Proof.
  intros Hup. cbv zeta.
  unfold delete_report, try_catch, bind, delete_review, pool_query. rewrite Hup.
  split; [reflexivity |]. split.
  - intros Hnone. simpl. rewrite Hnone. simpl.
    split; [reflexivity |]. apply delete_id. exact Hnone.
  - intros [row Hrow]. simpl. rewrite Hrow. simpl.
    split; [reflexivity |]. split; [apply lookup_delete_eq |].
    split; [intros other Hne; apply lookup_delete_ne; congruence |].
    intros Hup'.
    unfold get_report, try_catch, bind, select_review, pool_query. simpl.
    simpl in Hup'. rewrite Hup'. simpl.
    rewrite lookup_delete_eq. reflexivity.
Qed.

Lemma C9_delete_then_get_witness :
  fst (delete_report 1 (offline) one_review) =
    Normal {| code := 204; body := None |} /\
  fst (delete_report 7 (offline) one_review) =
    Normal (not_found 7) /\
  reviews (snd (delete_report 7 (offline) one_review)) =
    reviews one_review.
Proof.
  destruct (C9_delete_then_get 1 (offline) one_review)
    as (_ & _ & Hpresent); [reflexivity |].
  destruct (C9_delete_then_get 7 (offline) one_review)
    as (_ & Habsent & _); [reflexivity |].
  split.
  - apply Hpresent. exists sample_row. vm_compute. reflexivity.
  - apply Habsent. vm_compute. reflexivity.
Defined.


(** ** The client, further *)

Lemma schedule_events (payload : jsval) (i k : nat) :
  Forall (fun ev => ev = EvFetch payload \/ exists j, (i <= j)%nat /\ ev = EvSleep (backoff j))
         (schedule payload i k).
Proof.
  unfold schedule. apply List.Forall_app. split; [| repeat constructor].
  apply List.Forall_forall. intros ev Hev. apply in_flat_map in Hev.
  destruct Hev as (j & Hj & [<- | [<- | []]]); [left; reflexivity |].
  right. exists j. split; [| reflexivity]. apply in_seq in Hj. lia.
Qed.

Lemma callGeminiApi_added (payload : jsval) (e : env) (s : state) :
  exists added,
    actions (trace (snd (callGeminiApi payload e s))) = actions (trace s) ++ added /\
    Forall (fun ev => ev = EvFetch payload \/ exists ms, ev = EvSleep ms) added.
Proof.
  destruct (key_missing e) eqn:Hkey.
  - rewrite callGeminiApi_without_key by exact Hkey. simpl.
    exists []. split; [rewrite app_nil_r; reflexivity | constructor].
  - destruct (callGeminiApi_spec payload e s Hkey) as (k & _ & _ & _ & Hact & _).
    exists (schedule payload 0 k). split; [exact Hact |].
    eapply List.Forall_impl; [| apply schedule_events].
    intros ev [-> | (j & _ & ->)]; eauto.
Qed.

Lemma backoff_sum_bound (k : nat) :
  (k <= 4)%nat -> 0 <= fold_right Z.add 0 (map backoff (seq 0 k)) <= 15000.
Proof.
  intros Hk.
  destruct k as [| [| [| [| [| k]]]]]; try lia; vm_compute; split; discriminate.
Qed.

Lemma callGeminiApi_bounds (payload : jsval) (e : env) (s : state) :
  let s' := snd (callGeminiApi payload e s) in
  total_wait (trace s) <= total_wait (trace s') <= total_wait (trace s) + 15000 /\
  (fetches s <= fetches s' <= fetches s + 5)%nat.
Proof.
  cbv zeta. destruct (key_missing e) eqn:Hkey.
  - rewrite callGeminiApi_without_key by exact Hkey. simpl. lia.
  - destruct (callGeminiApi_spec payload e s Hkey) as (k & Hk & Hf & _ & Hact & _).
    unfold MAX_RETRIES in Hk.
    assert (Hsl : sleeps (trace (snd (callGeminiApi payload e s))) =
                  sleeps (trace s) ++ map backoff (seq 0 (k - 1))).
    { rewrite <- (sleeps_actions (trace (snd _))), Hact, sleeps_app,
        sleeps_actions, sleeps_schedule. reflexivity. }
    rewrite (total_wait_app (trace s) _ _ Hsl).
    pose proof (backoff_sum_bound (k - 1) ltac:(lia)). lia.
Qed.

Lemma callGeminiApi_first_success (payload : jsval) (e : env) (s : state)
  (j : nat) (v : jsval) :
  key_missing e = false ->
  (j < MAX_RETRIES)%nat ->
  (forall m, (m < j)%nat -> attempt_success (endpoint e (fetches s + m)%nat) = None) ->
  attempt_success (endpoint e (fetches s + j)%nat) = Some v ->
  fst (callGeminiApi payload e s) = Normal v /\
  fetches (snd (callGeminiApi payload e s)) = (fetches s + j + 1)%nat /\
  sleeps (trace (snd (callGeminiApi payload e s))) =
    sleeps (trace s) ++ map backoff (seq 0 j).
Proof.
  intros Hkey Hj Hfail Hok.
  destruct (callGeminiApi_spec payload e s Hkey) as (k & Hk & Hf & _ & Hact & Hnone & Hlast).
  assert (Hkj : k = S j).
  { destruct (lt_eq_lt_dec (k - 1) j) as [[Hlt | Heq] | Hgt]; [| lia |].
    - rewrite (Hfail _ Hlt) in Hlast. destruct Hlast as [-> _].
      unfold MAX_RETRIES in *. lia.
    - rewrite (Hnone j Hgt) in Hok. discriminate. }
  subst k. replace (S j - 1)%nat with j in * by lia.
  rewrite Hok in Hlast.
  split; [exact Hlast |]. split; [lia |].
  rewrite <- (sleeps_actions (trace (snd _))), Hact, sleeps_app,
    sleeps_actions, sleeps_schedule.
  replace (S j - 1)%nat with j by lia. reflexivity.
Qed.

Lemma attempt_trace (i : nat) (payload : jsval) (e : env) (s : state) :
  let s' := snd (attempt i payload e s) in
  match attempt_success (endpoint e (fetches s)) with
  | Some _ => trace s' = trace s ++ [EvFetch payload]
  | None =>
      exists line rest,
        trace s' = trace s ++ EvFetch payload :: EvLog line :: rest /\
        line_attempt line = Some (i + 1)%nat
  end.
Proof.
  cbv zeta. run.
  destruct (endpoint e (fetches s)) as [msg | r]; simpl.
  - destruct (i =? 4)%nat; simpl; rewrite <- ?app_assoc; simpl; eauto.
  - destruct (ok r); simpl.
    + destruct (json r) as [v | msg]; simpl.
      * destruct (truthy (extract_report v)); simpl; [reflexivity |].
        destruct (i =? 4)%nat; simpl; rewrite <- ?app_assoc; simpl; eauto.
      * destruct (i =? 4)%nat; simpl; rewrite <- ?app_assoc; simpl; eauto.
    + destruct ((500 <=? status r) && (i <? 4)%nat); simpl;
        [rewrite <- ?app_assoc; simpl; eauto |].
      destruct (error_detail (response_json_or_empty r) r); simpl;
        destruct (i =? 4)%nat; simpl; rewrite <- ?app_assoc; simpl; eauto.
Qed.

Lemma attempt_extends (i : nat) (payload : jsval) (e : env) (s : state) :
  exists added, trace (snd (attempt i payload e s)) = trace s ++ added.
Proof.
  pose proof (attempt_trace i payload e s) as H. cbv zeta in H.
  destruct (attempt_success (endpoint e (fetches s))); [eauto |].
  destruct H as (line & rest & -> & _). eauto.
Qed.

Lemma retry_loop_extends (payload : jsval) (e : env) (n : nat) :
  forall i s, exists added, trace (snd (retry_loop n i payload e s)) = trace s ++ added.
Proof.
  induction n as [| n IH]; intros i s.
  - exists []. simpl. rewrite app_nil_r. reflexivity.
  - rewrite retry_loop_S.
    destruct (attempt_extends i payload e s) as [a1 Ha1].
    destruct (attempt i payload e s) as [[[| v] | err] s1]; simpl in *; eauto.
    destruct (IH (S i) s1) as [a2 Ha2]. rewrite Ha2, Ha1, <- app_assoc. eauto.
Qed.

Lemma retry_loop_logs (payload : jsval) (e : env) (n : nat) :
  forall i s j,
  (i + n = MAX_RETRIES)%nat -> (j < n)%nat ->
  (forall m, (m <= j)%nat -> attempt_success (endpoint e (fetches s + m)%nat) = None) ->
  exists line,
    In (EvLog line) (trace (snd (retry_loop n i payload e s))) /\
    line_attempt line = Some (i + j + 1)%nat.
Proof.
  induction n as [| n IH]; intros i s j Hin Hj Hfail; [lia |].
  assert (Hi : (i < MAX_RETRIES)%nat) by lia.
  pose proof (attempt_spec i payload e s Hi) as Ha.
  pose proof (attempt_trace i payload e s) as Ht.
  cbv zeta in Ha, Ht. rewrite retry_loop_S.
  pose proof (Hfail 0%nat ltac:(lia)) as H0.
  replace (fetches s + 0)%nat with (fetches s) in H0 by lia.
  rewrite H0 in Ha, Ht.
  destruct Ht as (line & rest & Htr & Hline).
  destruct Ha as (Hf & _ & Ha).
  destruct (attempt i payload e s) as [c1 s1]. simpl in *.
  destruct (Nat.eqb_spec i 4) as [Hi4 | Hi4].
  - destruct Ha as [-> _]. simpl. unfold MAX_RETRIES in Hin.
    exists line. split.
    + rewrite Htr. apply in_or_app. right. right. left. reflexivity.
    + rewrite Hline. f_equal. lia.
  - destruct Ha as [-> _].
    destruct j as [| j].
    + destruct (retry_loop_extends payload e n (S i) s1) as [added ->].
      exists line. split.
      * rewrite Htr. apply in_or_app. left. apply in_or_app. right. right. left. reflexivity.
      * rewrite Hline. f_equal. lia.
    + destruct (IH (S i) s1 j) as (line' & Hin' & Hline'); [lia | lia | |].
      * intros m Hm. rewrite Hf.
        replace (S (fetches s) + m)%nat with (fetches s + S m)%nat by lia.
        apply Hfail. lia.
      * exists line'. split; [exact Hin' |]. rewrite Hline'. f_equal. lia.
Qed.

(** X1. No call ever ends with the error built after the loop: the last
    iteration always returns or throws, so that [throw] is unreachable. *)
Theorem callGeminiApi_never_exhausted (payload : jsval) (e : env) (s : state) :
  fst (callGeminiApi payload e s) <> Throw GenerationExhausted.
Proof.
  destruct (key_missing e) eqn:Hkey.
  - rewrite callGeminiApi_without_key by exact Hkey. discriminate.
  - destruct (callGeminiApi_spec payload e s Hkey) as (k & _ & _ & _ & _ & _ & Hlast).
    destruct (attempt_success (endpoint e (fetches s + (k - 1))%nat)).
    + rewrite Hlast. discriminate.
    + destruct Hlast as [_ ->]. intros [= Heq].
      exact (attempt_error_not_exhausted _ Heq).
Qed.

(** X2. A call sends at most 5 requests and waits at most 15000 ms in
    total, whatever the endpoint does and whether or not a key is set. *)
Theorem callGeminiApi_wait_bound (payload : jsval) (e : env) (s : state) :
  let s' := snd (callGeminiApi payload e s) in
  total_wait (trace s) <= total_wait (trace s') <= total_wait (trace s) + 15000 /\
  (fetches s <= fetches s' <= fetches s + 5)%nat.
Proof.
  exact (callGeminiApi_bounds payload e s).
Qed.

(** X3. The client knows nothing of files or reviews: a call leaves the
    uploads, the table, the sequence and the count of queries as they were,
    and besides console lines it only sends requests, each carrying the
    payload it was given, and waits. *)
Theorem callGeminiApi_only_talks_to_the_endpoint (payload : jsval) (e : env) (s : state) :
  let s' := snd (callGeminiApi payload e s) in
  uploads s' = uploads s /\ reviews s' = reviews s /\
  next_id s' = next_id s /\ queries s' = queries s /\
  exists added,
    actions (trace s') = actions (trace s) ++ added /\
    Forall (fun ev => ev = EvFetch payload \/ exists ms, ev = EvSleep ms) added.
Proof.
  cbv zeta.
  destruct (callGeminiApi_frame payload e s) as ((Hu & Hr & Hn & Hq) & _ & _).
  split; [exact Hu |]. split; [exact Hr |]. split; [exact Hn |]. split; [exact Hq |].
  apply callGeminiApi_added.
Qed.

(** X4. Every failed attempt is on the console with its number: if attempts
    1 to [j + 1] all fail, a line numbered [j + 1] has been written. *)
Theorem callGeminiApi_logs_every_failure (payload : jsval) (e : env) (s : state) (j : nat) :
  key_missing e = false ->
  (j < MAX_RETRIES)%nat ->
  (forall m, (m <= j)%nat -> attempt_success (endpoint e (fetches s + m)%nat) = None) ->
  exists line,
    In (EvLog line) (trace (snd (callGeminiApi payload e s))) /\
    line_attempt line = Some (j + 1)%nat.
Proof.
  intros Hkey Hj Hfail. rewrite callGeminiApi_with_key by exact Hkey.
  destruct (retry_loop_logs payload e MAX_RETRIES 0 s j) as (line & Hin & Hline);
    [reflexivity | exact Hj | exact Hfail |].
  exists line. split; [exact Hin | exact Hline].
Qed.

Lemma callGeminiApi_logs_every_failure_witness :
  exists line,
    In (EvLog line) (trace (snd (callGeminiApi some_payload flaky start))) /\
    line_attempt line = Some 2%nat.
Proof.
  apply (callGeminiApi_logs_every_failure some_payload flaky start 1);
    [reflexivity | unfold MAX_RETRIES; lia |].
  intros [| [| m]] Hm; [reflexivity | reflexivity | lia].
Defined.

(** X5. The first attempt that succeeds decides the call, whatever made the
    earlier ones fail: if attempt [j + 1] is the first success, the call
    returns its text after exactly [j + 1] requests and the waits
    [1000 * 2^0, ..., 1000 * 2^(j-1)]. *)
Theorem callGeminiApi_first_success_wins (payload : jsval) (e : env) (s : state)
  (j : nat) (v : jsval) :
  key_missing e = false ->
  (j < MAX_RETRIES)%nat ->
  (forall m, (m < j)%nat -> attempt_success (endpoint e (fetches s + m)%nat) = None) ->
  attempt_success (endpoint e (fetches s + j)%nat) = Some v ->
  fst (callGeminiApi payload e s) = Normal v /\
  fetches (snd (callGeminiApi payload e s)) = (fetches s + j + 1)%nat /\
  sleeps (trace (snd (callGeminiApi payload e s))) =
    sleeps (trace s) ++ map backoff (seq 0 j).
Proof.
  exact (callGeminiApi_first_success payload e s j v).
Qed.

Lemma callGeminiApi_first_success_wins_witness :
  fst (callGeminiApi some_payload flaky start) = Normal (JStr "third time") /\
  fetches (snd (callGeminiApi some_payload flaky start)) = 3%nat.
Proof.
  destruct (callGeminiApi_first_success_wins some_payload flaky start 2 (JStr "third time"))
    as (Hr & Hf & _);
    [reflexivity | unfold MAX_RETRIES; lia
    | intros [| [| m]] Hm; [reflexivity | reflexivity | lia]
    | reflexivity |].
  split; [exact Hr | exact Hf].
Defined.

(** X6. When no attempt succeeds, for whatever reasons, the call sends 5
    requests, waits 1000, 2000, 4000 and 8000 ms between them, and throws
    the error of the fifth attempt. *)
Theorem callGeminiApi_all_failures (payload : jsval) (e : env) (s : state) :
  key_missing e = false ->
  (forall m, (m < MAX_RETRIES)%nat ->
             attempt_success (endpoint e (fetches s + m)%nat) = None) ->
  let s' := snd (callGeminiApi payload e s) in
  fst (callGeminiApi payload e s) = Throw (attempt_error (endpoint e (fetches s + 4)%nat)) /\
  fetches s' = (fetches s + 5)%nat /\
  sleeps (trace s') = sleeps (trace s) ++ [1000; 2000; 4000; 8000] /\
  total_wait (trace s') = total_wait (trace s) + 15000.
Proof.
  intros Hkey Hfail. cbv zeta.
  destruct (callGeminiApi_spec payload e s Hkey) as (k & Hk & Hf & _ & Hact & _ & Hlast).
  rewrite Hfail in Hlast by lia. destruct Hlast as [-> Hc].
  assert (Hsl : sleeps (trace (snd (callGeminiApi payload e s))) =
                sleeps (trace s) ++ [1000; 2000; 4000; 8000]).
  { rewrite <- (sleeps_actions (trace (snd _))), Hact, sleeps_app,
      sleeps_actions, sleeps_schedule. reflexivity. }
  split; [exact Hc |]. split; [exact Hf |]. split; [exact Hsl |].
  rewrite (total_wait_app (trace s) [1000; 2000; 4000; 8000]); [reflexivity | exact Hsl].
Qed.

Lemma callGeminiApi_all_failures_witness :
  fst (callGeminiApi some_payload offline start) = Throw (Foreign "fetch failed") /\
  total_wait (trace (snd (callGeminiApi some_payload offline start))) = 15000 /\
  fst (callGeminiApi some_payload unprintable_503 start) =
    Throw (TypeError "Cannot convert object to primitive value").
Proof.
  destruct (callGeminiApi_all_failures some_payload offline start) as (Hr & _ & _ & Hw);
    [reflexivity | intros m _; reflexivity |].
  destruct (callGeminiApi_all_failures some_payload unprintable_503 start) as (Hu & _);
    [reflexivity | intros m _; reflexivity |].
  split; [exact Hr |]. split; [exact Hw | exact Hu].
Defined.


(** ** The extension of a file name *)

Lemma scan_right_to_left (l : list (Z * ascii)) (st : ext_scan) :
  fold_left ext_scan_step (rev l) st =
  fold_right (fun ic acc => ext_scan_step acc ic) st l.
Proof.
  rewrite <- (rev_involutive l) at 2. rewrite fold_left_rev_right. reflexivity.
Qed.

Lemma extname_scan (p : string) :
  extname p =
    let st := scan_from 0 (list_ascii_of_string p) ext_scan_init in
    if (startDot st =? -1) || (end_ st =? -1) || (preDotState st =? 0)
       || ((preDotState st =? 1) && (startDot st =? end_ st - 1)
           && (startDot st =? startPart st + 1))
    then EmptyString
    else substring (Z.to_nat (startDot st)) (Z.to_nat (end_ st - startDot st)) p.
Proof.
  unfold extname, indexed. rewrite scan_right_to_left. reflexivity.
Qed.

Lemma indexed_from_cons (k : nat) (c : ascii) (cs : list ascii) :
  indexed_from k (c :: cs) = (Z.of_nat k, c) :: indexed_from (S k) cs.
Proof. reflexivity. Qed.

Lemma scan_from_cons (k : nat) (c : ascii) (cs : list ascii) (st : ext_scan) :
  scan_from k (c :: cs) st = ext_scan_step (scan_from (S k) cs st) (Z.of_nat k, c).
Proof. reflexivity. Qed.

Lemma scan_from_app (a b : list ascii) (st : ext_scan) :
  forall k, scan_from k (a ++ b) st =
            scan_from k a (scan_from (k + List.length a) b st).
Proof.
  induction a as [| c a IH]; intros k.
  - simpl. rewrite Nat.add_0_r. reflexivity.
  - rewrite <- app_comm_cons, !scan_from_cons, IH. simpl List.length.
    replace (S k + List.length a)%nat with (k + S (List.length a))%nat by lia.
    reflexivity.
Qed.

Lemma list_ascii_of_string_append (a b : string) :
  list_ascii_of_string (a +:+ b) = list_ascii_of_string a ++ list_ascii_of_string b.
Proof. induction a as [| c a IH]; simpl; [reflexivity | rewrite IH; reflexivity]. Qed.

Lemma length_list_ascii (a : string) :
  List.length (list_ascii_of_string a) = String.length a.
Proof. induction a as [| c a IH]; simpl; [reflexivity | rewrite IH; reflexivity]. Qed.

Lemma substring_all (b : string) : substring 0 (String.length b) b = b.
Proof. induction b as [| c b IH]; simpl; [reflexivity | rewrite IH; reflexivity]. Qed.

Lemma substring_after (a b : string) :
  substring (String.length a) (String.length b) (a +:+ b) = b.
Proof. induction a as [| c a IH]; simpl; [apply substring_all | exact IH]. Qed.

(** The scan of a run of plain characters, started from the right end. *)
Lemma scan_plain (cs : string) :
  all_plain cs = true -> cs <> EmptyString ->
  forall k,
  scan_from k (list_ascii_of_string cs) ext_scan_init =
    {| startDot := -1; startPart := 0;
       end_ := Z.of_nat (k + String.length cs); matchedSlash := false;
       preDotState := 0; stopped := false |}.
Proof.
  induction cs as [| c cs IH]; intros Hplain Hne k; [congruence |].
  simpl in Hplain. apply andb_true_iff in Hplain. destruct Hplain as [Hc Hcs].
  unfold plain in Hc. apply andb_true_iff in Hc. destruct Hc as [Hdot Hslash].
  apply negb_true_iff in Hdot, Hslash.
  simpl list_ascii_of_string. rewrite scan_from_cons.
  destruct cs as [| c' cs'].
  - simpl. unfold ext_scan_step. simpl. rewrite Hslash, Hdot. simpl.
    f_equal. lia.
  - rewrite IH by (trivial; discriminate).
    unfold ext_scan_step. cbn [stopped end_ startDot]. rewrite Hslash, Hdot.
    destruct (Z.eqb_spec (Z.of_nat (S k + String.length (String c' cs'))) (-1)); [lia |].
    simpl. f_equal. f_equal. simpl. lia.
Qed.

(** Once the dot and the end of the extension are found, and a character was
    seen before the dot, the rest of the path changes neither. *)
Lemma scan_keeps_extension (d e : Z) (cs : list ascii) :
  d <> -1 -> e <> -1 ->
  forall k st,
  startDot st = d -> end_ st = e -> preDotState st <> 0 ->
  let st' := scan_from k cs st in
  startDot st' = d /\ end_ st' = e /\ preDotState st' <> 0.
Proof.
  intros Hd He. induction cs as [| c cs IH]; intros k st Hsd Hen Hpre; [auto |].
  cbv zeta. rewrite scan_from_cons.
  destruct (IH (S k) st Hsd Hen Hpre) as (Hsd' & Hen' & Hpre').
  set (st1 := scan_from (S k) cs st) in *.
  unfold ext_scan_step.
  destruct (stopped st1); [auto |].
  destruct (Ascii.eqb c "/").
  - destruct (negb (matchedSlash st1)); simpl; auto.
  - destruct (Z.eqb_spec (end_ st1) (-1)) as [Heq | _]; [congruence |].
    destruct (Ascii.eqb c ".").
    + destruct (Z.eqb_spec (startDot st1) (-1)) as [Heq | _]; [congruence |].
      destruct (negb (preDotState st1 =? 1)); simpl; auto.
    + destruct (Z.eqb_spec (startDot st1) (-1)) as [Heq | _]; [congruence |].
      simpl. repeat split; trivial. discriminate.
Qed.

Lemma scan_no_dot (cs : string) :
  no_dot cs = true ->
  forall k, startDot (scan_from k (list_ascii_of_string cs) ext_scan_init) = -1.
Proof.
  induction cs as [| c cs IH]; intros Hnd k; [reflexivity |].
  simpl in Hnd. apply andb_true_iff in Hnd. destruct Hnd as [Hc Hcs].
  apply negb_true_iff in Hc.
  simpl list_ascii_of_string. rewrite scan_from_cons.
  specialize (IH Hcs (S k)).
  set (st1 := scan_from (S k) (list_ascii_of_string cs) ext_scan_init) in *.
  unfold ext_scan_step.
  destruct (stopped st1); [exact IH |].
  destruct (Ascii.eqb c "/").
  - destruct (negb (matchedSlash st1)); simpl; exact IH.
  - rewrite Hc. destruct (end_ st1 =? -1); simpl; rewrite IH; simpl; trivial.
Qed.

Lemma append_cons_assoc (pre : string) (c : ascii) (rest : string) :
  (pre +:+ String c EmptyString) +:+ rest = pre +:+ String c rest.
Proof.
  induction pre as [| a pre IH]; [reflexivity |].
  change (String a ((pre +:+ String c EmptyString) +:+ rest) = String a (pre +:+ String c rest)).
  rewrite IH. reflexivity.
Qed.

Lemma length_append_one (pre : string) (c : ascii) :
  String.length (pre +:+ String c EmptyString) = S (String.length pre).
Proof.
  induction pre as [| a pre IH]; [reflexivity |].
  change (S (String.length (pre +:+ String c EmptyString)) = S (S (String.length pre))).
  rewrite IH. reflexivity.
Qed.

(** A name that ends in a plain character, a dot and a non-empty run of plain
    characters has that dot and run as its extension. *)
Lemma extname_of_suffix (pre : string) (c : ascii) (ext : string) :
  plain c = true -> all_plain ext = true -> ext <> EmptyString ->
  extname (pre +:+ String c ("." +:+ ext)) = "." +:+ ext.
Proof.
  intros Hc Hext Hne. change ("." +:+ ext) with (String "."%char ext).
  rewrite extname_scan. cbv zeta.
  rewrite list_ascii_of_string_append. simpl list_ascii_of_string.
  rewrite scan_from_app, !scan_from_cons, scan_plain by assumption.
  rewrite length_list_ascii. simpl Nat.add.
  set (n := String.length pre).
  unfold plain in Hc. apply andb_true_iff in Hc. destruct Hc as [Hdot Hslash].
  apply negb_true_iff in Hdot, Hslash.
  assert (Hlen : (0 < String.length ext)%nat).
  { destruct ext; [congruence | simpl; lia]. }
  match goal with
  | |- context [Build_ext_scan _ _ ?x _ _ _] => set (e := x)
  end.
  assert (He : Z.of_nat (S n) < e - 1) by (subst e; lia).
  assert (Hstep :
    ext_scan_step
      (ext_scan_step
         {| startDot := -1; startPart := 0; end_ := e; matchedSlash := false;
            preDotState := 0; stopped := false |}
         (Z.of_nat (S n), "."%char))
      (Z.of_nat n, c) =
    {| startDot := Z.of_nat (S n); startPart := 0; end_ := e;
       matchedSlash := false; preDotState := -1; stopped := false |}).
  { unfold ext_scan_step. cbn [stopped end_ startDot matchedSlash preDotState startPart].
    change (Ascii.eqb "." "/") with false. change (Ascii.eqb "." ".") with true.
    destruct (Z.eqb_spec e (-1)); [lia |]. cbn.
    rewrite Hslash, Hdot.
    destruct (Z.eqb_spec e (-1)); [lia |].
    destruct (Z.eqb_spec (Z.of_nat (S n)) (-1)); [lia |]. reflexivity. }
  rewrite Hstep.
  match goal with
  | |- context [scan_from 0 ?cs ?st] =>
      destruct (scan_keeps_extension (Z.of_nat (S n)) e cs
                  ltac:(lia) ltac:(lia) 0%nat st eq_refl eq_refl
                  ltac:(discriminate)) as (Hsd & Hen & Hpre);
      set (fin := scan_from 0 cs st) in *
  end.
  rewrite Hsd, Hen.
  destruct (Z.eqb_spec (Z.of_nat (S n)) (-1)); [lia |].
  destruct (Z.eqb_spec e (-1)); [lia |].
  destruct (Z.eqb_spec (preDotState fin) 0); [congruence |].
  destruct (Z.eqb_spec (Z.of_nat (S n)) (e - 1)); [lia |].
  rewrite andb_false_r. simpl orb. cbv iota.
  replace (Z.to_nat (Z.of_nat (S n))) with (String.length (pre +:+ String c EmptyString)).
  2:{ rewrite Nat2Z.id. apply length_append_one. }
  replace (Z.to_nat (e - Z.of_nat (S n))) with (String.length (String "."%char ext)).
  2:{ subst e. simpl. lia. }
  replace (pre +:+ String c (String "."%char ext))
    with ((pre +:+ String c EmptyString) +:+ String "."%char ext).
  2:{ apply append_cons_assoc. }
  apply substring_after.
Qed.

Lemma extname_without_dot (p : string) :
  no_dot p = true -> extname p = EmptyString.
Proof.
  intros Hnd. rewrite extname_scan. cbv zeta.
  rewrite (scan_no_dot p Hnd 0). reflexivity.
Qed.

Lemma extname_dotfile (ext : string) :
  all_plain ext = true -> extname ("." +:+ ext) = EmptyString.
Proof.
  intros Hext. rewrite extname_scan. cbv zeta.
  simpl list_ascii_of_string. rewrite scan_from_cons.
  destruct ext as [| c ext].
  - reflexivity.
  - rewrite scan_plain by (trivial; discriminate).
    unfold ext_scan_step. cbn [stopped end_ startDot matchedSlash preDotState startPart].
    change (Ascii.eqb "." "/") with false. change (Ascii.eqb "." ".") with true.
    destruct (Z.eqb_spec (Z.of_nat (1 + String.length (String c ext))) (-1)); [lia |].
    cbn. rewrite orb_true_r. reflexivity.
Qed.

(** X7. The extension alone lets a file through, in any letter case and
    whatever MIME type was declared: a name ending in a character other
    than [.] and [/], a dot, and an extension whose lower-case form is in
    the list passes the type test, and if the file is not larger than
    5 MiB it becomes [req.file] and its text is under [uploads/], nothing
    else there being touched. *)
Theorem extension_is_sufficient (file : candidate) (pre : string) (c : ascii)
  (ext : string) (p : option string) (t : string) (e : env) (s : state) :
  originalname file = pre +:+ String c ("." +:+ ext) ->
  plain c = true -> all_plain ext = true ->
  In (toLowerCase ("." +:+ ext)) allowedExtensions ->
  type_allowed file = true /\
  (size file <= 5 * 1024 * 1024 ->
   let stored := uploader {| file_part := Some file; prompt := p; tmp_name := t |} e s in
   fst stored =
     Normal (UploadDone (Some {| path := "uploads/" +:+ t; upload := file |})) /\
   uploads (snd stored) = <[("uploads/" +:+ t) := content file]> (uploads s) /\
   uploads (snd stored) !! ("uploads/" +:+ t) = Some (content file) /\
   (forall q, q <> "uploads/" +:+ t -> uploads (snd stored) !! q = uploads s !! q)).
Proof.
  intros Hname Hc Hext Hin.
  assert (Hne : ext <> EmptyString).
  { intros ->. apply includes_In in Hin. vm_compute in Hin. discriminate. }
  assert (Htype : type_allowed file = true).
  { apply type_allowed_In. right.
    rewrite Hname, extname_of_suffix by assumption. exact Hin. }
  split; [exact Htype |].
  intros Hsize. cbv zeta. rewrite uploader_spec. cbn [file_part]. cbv zeta.
  rewrite Htype.
  change (5 * 1024 * 1024) with fileSize in Hsize.
  destruct (Z.leb_spec (size file) fileSize); [| lia]. cbn [fst snd].
  split; [reflexivity |]. split; [reflexivity |].
  split; [apply lookup_insert_eq |].
  intros q Hq. simpl. apply lookup_insert_ne. congruence.
Qed.

Lemma extension_is_sufficient_witness :
  type_allowed small_py = true /\
  type_allowed kelvin_kt = true /\
  uploads (snd (uploader (upload_of kelvin_kt) offline start)) !! "uploads/3f2a9c" =
    Some "fun main() {}".
Proof.
  destruct (extension_is_sufficient small_py "scrip" "t"%char "PY" None "x" offline start)
    as [Hpy _];
    [vm_compute; reflexivity | reflexivity | reflexivity | vm_compute; tauto |].
  destruct (extension_is_sufficient kelvin_kt EmptyString "a"%char (kelvin +:+ "t")
              (Some "Check for bugs") "3f2a9c" offline start)
    as [Hkt Hstored];
    [vm_compute; reflexivity | reflexivity | vm_compute; reflexivity | vm_compute; tauto |].
  split; [exact Hpy |]. split; [exact Hkt |].
  apply Hstored. vm_compute. discriminate.
Defined.

(** X8. A name without any dot has no extension, so the declared MIME type
    alone decides the type test. *)
Theorem name_without_dot_needs_mime (file : candidate) :
  no_dot (originalname file) = true ->
  type_allowed file = includes allowedMimeTypes (mimetype file).
Proof.
  intros Hnd. unfold type_allowed. rewrite extname_without_dot by exact Hnd.
  apply orb_false_r.
Qed.

Lemma name_without_dot_needs_mime_witness :
  type_allowed makefile = false.
Proof.
  rewrite (name_without_dot_needs_mime makefile); [| reflexivity].
  vm_compute. reflexivity.
Defined.

(** X9. A name that is only a dot followed by plain characters, such as
    [.py], has no extension either: the file passes on its MIME type only,
    and is refused as an invalid type otherwise. *)
Theorem dotfile_has_no_extension (file : candidate) (ext : string)
  (p : option string) (t : string) (e : env) (s : state) :
  originalname file = "." +:+ ext -> all_plain ext = true ->
  extname (originalname file) = EmptyString /\
  type_allowed file = includes allowedMimeTypes (mimetype file) /\
  (includes allowedMimeTypes (mimetype file) = false ->
   fst (uploader {| file_part := Some file; prompt := p; tmp_name := t |} e s) =
     Normal (UploadFailed InvalidFileType)).
Proof.
  intros Hname Hext.
  assert (Hempty : extname (originalname file) = EmptyString).
  { rewrite Hname. apply extname_dotfile. exact Hext. }
  assert (Htype : type_allowed file = includes allowedMimeTypes (mimetype file)).
  { unfold type_allowed. rewrite Hempty. apply orb_false_r. }
  split; [exact Hempty |]. split; [exact Htype |].
  intros Hmime. rewrite uploader_spec. simpl. rewrite Htype, Hmime. reflexivity.
Qed.

Lemma dotfile_has_no_extension_witness :
  fst (uploader (upload_of dot_py) offline start) = Normal (UploadFailed InvalidFileType).
Proof.
  apply (dotfile_has_no_extension dot_py "py" (Some "Check for bugs") "3f2a9c" offline start);
    [reflexivity | reflexivity | vm_compute; reflexivity].
Defined.


(** ** The routes, further *)

Lemma deleteTempFile_ids (p : string) (e : env) (s : state) :
  let s' := snd (deleteTempFile p e s) in
  next_id s' = next_id s /\ queries s' = queries s.
Proof.
  cbv zeta. rewrite deleteTempFile_spec.
  destruct (String.eqb p EmptyString); [split; reflexivity |].
  destruct (uploads s !! p); [| split; reflexivity].
  cbv zeta. destruct (unlink_fault e p); split; reflexivity.
Qed.

(** X10. [deleteTempFile] touches no file but the one it is given, and
    nothing of the table or the counters. When the unlink succeeds the file
    is gone and a second call does nothing; when it fails the directory is
    as before. *)
Theorem deleteTempFile_removes_only_its_file (p : string) (e : env) (s : state) :
  let s' := snd (deleteTempFile p e s) in
  (forall q, q <> p -> uploads s' !! q = uploads s !! q) /\
  reviews s' = reviews s /\ fetches s' = fetches s /\ queries s' = queries s /\
  (unlink_fault e p = None -> p <> EmptyString ->
     uploads s' !! p = None /\ deleteTempFile p e s' = (Normal tt, s')) /\
  (forall err, unlink_fault e p = Some err -> uploads s' = uploads s).
Proof.
  cbv zeta.
  destruct (deleteTempFile_store p e s) as (Hr & Hf & _).
  destruct (deleteTempFile_ids p e s) as (_ & Hq).
  split; [| split; [exact Hr | split; [exact Hf | split; [exact Hq |]]]].
  - intros q Hq'. rewrite deleteTempFile_spec.
    destruct (String.eqb p EmptyString); [reflexivity |].
    destruct (uploads s !! p); [| reflexivity].
    cbv zeta. destruct (unlink_fault e p); simpl; [reflexivity |].
    apply lookup_delete_ne. congruence.
  - split.
    + intros Hok Hne.
      assert (Hgone : uploads (snd (deleteTempFile p e s)) !! p = None).
      { rewrite deleteTempFile_spec.
        destruct (String.eqb_spec p EmptyString); [congruence |].
        destruct (uploads s !! p) eqn:Hp; [| exact Hp].
        cbv zeta. rewrite Hok. simpl. apply lookup_delete_eq. }
      split; [exact Hgone |].
      rewrite (deleteTempFile_spec p e (snd (deleteTempFile p e s))), Hgone.
      destruct (String.eqb p EmptyString); reflexivity.
    + intros err Hfault. rewrite deleteTempFile_spec.
      destruct (String.eqb p EmptyString); [reflexivity |].
      destruct (uploads s !! p); [| reflexivity].
      cbv zeta. rewrite Hfault. reflexivity.
Qed.

Lemma deleteTempFile_removes_only_its_file_witness :
  uploads (snd (deleteTempFile "uploads/old" offline with_leftover)) !! "uploads/old" = None /\
  uploads (snd (deleteTempFile "uploads/old" store_down with_leftover)) = uploads with_leftover.
Proof.
  destruct (deleteTempFile_removes_only_its_file "uploads/old" offline with_leftover)
    as (_ & _ & _ & _ & Hok & _).
  destruct (deleteTempFile_removes_only_its_file "uploads/old" store_down with_leftover)
    as (_ & _ & _ & _ & _ & Hfault).
  split.
  - apply Hok; [reflexivity | discriminate].
  - apply (Hfault "EPERM"). reflexivity.
Defined.

Lemma analyze_route_no_file (req : request) (e : env) (s : state) :
  file_part req = None ->
  analyze_route req e s = (Normal (json_error 400 "A code file is required."), s).
Proof.
  intros Hnone. rewrite analyze_route_spec, uploader_spec, Hnone. cbn [fst snd].
  rewrite analyze_handler_spec. reflexivity.
Qed.

Lemma analyze_route_no_prompt (req : request) (e : env) (s : state) (f : req_file) :
  fst (uploader req e s) = Normal (UploadDone (Some f)) ->
  truthy (prompt_value (prompt req)) = false ->
  analyze_route req e s =
    (Normal (json_error 400 "A review prompt is required."),
     snd (deleteTempFile (path f) e (snd (uploader req e s)))).
Proof.
  intros Hup Hp. rewrite analyze_route_spec, Hup, analyze_handler_spec.
  unfold analyze_try. rewrite Hp. reflexivity.
Qed.

Lemma analyze_route_rejected (req : request) (e : env) (s : state) (err : upload_error) :
  fst (uploader req e s) = Normal (UploadFailed err) ->
  exists file message s0,
    file_part req = Some file /\
    (type_allowed file = false \/ fileSize < size file) /\
    analyze_route req e s = (Normal (json_error 400 message), s0) /\
    fetches s0 = fetches s /\ queries s0 = queries s /\ reviews s0 = reviews s /\
    next_id s0 = next_id s /\ sleeps (trace s0) = sleeps (trace s).
Proof.
  intros Hup. rewrite analyze_route_spec. rewrite uploader_spec in *.
  destruct (file_part req) as [file |]; [| discriminate].
  cbv zeta in *. exists file.
  destruct (type_allowed file).
  - destruct (Z.leb_spec (size file) fileSize); [discriminate |].
    eexists _, _. split; [reflexivity |]. split; [right; assumption |].
    split; [reflexivity |]. cbn [fst snd]. unfold aborted.
    destruct (unlink_fault e (path (stored_as req file))); simpl;
      rewrite !sleeps_app; simpl; rewrite !app_nil_r; repeat split.
  - eexists _, _. split; [reflexivity |]. split; [left; reflexivity |].
    split; [reflexivity |]. cbn [fst snd]. simpl.
    rewrite sleeps_app. simpl. rewrite app_nil_r. repeat split.
Qed.

(** The counters of the store after a request with a stored file and a
    prompt. *)
Lemma analyze_route_counters (req : request) (e : env) (s : state) (f : req_file) :
  fst (uploader req e s) = Normal (UploadDone (Some f)) ->
  truthy (prompt_value (prompt req)) = true ->
  let s1 := emit (EvReadFile (path f)) (snd (uploader req e s)) in
  let g := callGeminiApi (request_payload f (prompt req)) e s1 in
  let s' := snd (analyze_route req e s) in
  match fst g with
  | Throw _ => next_id s' = next_id s /\ queries s' = queries s
  | Normal _ =>
      queries s' = S (queries s) /\
      match store_fault e (queries s) with
      | Some _ => next_id s' = next_id s
      | None => next_id s' = next_id s + 1
      end
  end.
Proof.
  intros Hup Hp. cbv zeta.
  destruct (uploader_done req e s f Hup) as (file & Hpart & Hf & _ & _ & Hs0).
  rewrite analyze_route_spec, Hup, analyze_handler_spec. cbv zeta.
  assert (Hfile : uploads (snd (uploader req e s)) !! path f = Some (content (upload f))).
  { rewrite Hs0, Hf. simpl. apply lookup_insert_eq. }
  rewrite (analyze_try_spec f (prompt req) e _ Hp Hfile). cbv zeta.
  pose proof (callGeminiApi_frame (request_payload f (prompt req)) e
                (emit (EvReadFile (path f)) (snd (uploader req e s))))
    as ((_ & _ & Hnext & Hq) & _ & _).
  simpl in Hnext, Hq.
  assert (Hq0 : queries (snd (uploader req e s)) = queries s) by (rewrite Hs0; reflexivity).
  assert (Hn0 : next_id (snd (uploader req e s)) = next_id s) by (rewrite Hs0; reflexivity).
  destruct (callGeminiApi (request_payload f (prompt req)) e
              (emit (EvReadFile (path f)) (snd (uploader req e s))))
    as [[generated | err] s2]; cbn [fst snd] in *.
  - rewrite Hq, Hq0. destruct (store_fault e (queries s)) as [message |]; cbn [fst snd];
      match goal with
      | |- context [deleteTempFile ?p e ?st] =>
          destruct (deleteTempFile_ids p e st) as (Hni & Hqi)
      end; rewrite Hni, Hqi; simpl; rewrite ?Hq, ?Hnext, ?Hq0, ?Hn0; split; reflexivity.
  - match goal with
    | |- context [deleteTempFile ?p e ?st] =>
        destruct (deleteTempFile_ids p e st) as (Hni & Hqi)
    end. rewrite Hni, Hqi. simpl. rewrite Hq, Hnext, Hq0, Hn0. split; reflexivity.
Qed.

(** X11. [POST /api/analyze] always answers, with 400, 201 or 500, and
    with 400 exactly when there is no file part, or the file is of a refused
    type or larger than 5 MiB, or the prompt is missing or empty. *)
Theorem analyze_route_status_codes (req : request) (e : env) (s : state) :
  exists resp,
    fst (analyze_route req e s) = Normal resp /\
    (code resp = 400 \/ code resp = 201 \/ code resp = 500) /\
    (code resp = 400 <->
       file_part req = None \/
       (exists file, file_part req = Some file /\
                     (type_allowed file = false \/ 5 * 1024 * 1024 < size file)) \/
       truthy (prompt_value (prompt req)) = false).
Proof.
  destruct (fst (uploader req e s)) as [[err | [f |]] | err] eqn:Hup.
  - destruct (analyze_route_rejected req e s err Hup)
      as (file & message & s0 & Hpart & Hwhy & -> & _).
    eexists. split; [reflexivity |]. split; [left; reflexivity |].
    split; [| reflexivity]. intros _. right. left. eauto.
  - destruct (truthy (prompt_value (prompt req))) eqn:Hp.
    + destruct (analyze_route_accepted req e s f Hup Hp) as (_ & _ & _ & _ & Hr).
      destruct (uploader_done req e s f Hup) as (file & Hpart & _ & Htype & Hsize & _).
      assert (Hnot : ~ (file_part req = None \/
                (exists file0, file_part req = Some file0 /\
                   (type_allowed file0 = false \/ 5 * 1024 * 1024 < size file0)) \/
                true = false)).
      { intros [Hnone | [(file0 & Hsome & Hbad) | Hfalse]]; [congruence | | discriminate].
        rewrite Hpart in Hsome. injection Hsome as <-.
        change (5 * 1024 * 1024) with fileSize in Hbad.
        destruct Hbad; [congruence | lia]. }
      destruct (fst (callGeminiApi _ e _)).
      * destruct (store_fault e (queries s)); destruct Hr as [-> _];
          eexists; (split; [reflexivity |]); simpl;
          (split; [auto |]); (split; [discriminate | intros H; destruct (Hnot H)]).
      * destruct Hr as [-> _]. eexists. split; [reflexivity |]. simpl.
        split; [auto |]. split; [discriminate | intros H; destruct (Hnot H)].
    + rewrite (analyze_route_no_prompt req e s f Hup Hp).
      eexists. split; [reflexivity |]. split; [left; reflexivity |].
      split; [| reflexivity]. intros _. right. right. reflexivity.
  - assert (Hnone : file_part req = None).
    { rewrite uploader_spec in Hup. destruct (file_part req) as [file |]; [| reflexivity].
      cbv zeta in Hup. destruct (type_allowed file); [| discriminate].
      destruct (size file <=? fileSize); discriminate. }
    rewrite (analyze_route_no_file req e s Hnone).
    eexists. split; [reflexivity |]. split; [left; reflexivity |].
    split; [| reflexivity]. intros _. left. exact Hnone.
  - exfalso. rewrite uploader_spec in Hup.
    destruct (file_part req) as [file |]; [| discriminate].
    cbv zeta in Hup. destruct (type_allowed file); [| discriminate].
    destruct (size file <=? fileSize); discriminate.
Qed.

Lemma analyze_route_status_codes_witness :
  exists resp,
    fst (analyze_route (upload_of makefile) offline start) = Normal resp /\ code resp = 400.
Proof.
  destruct (analyze_route_status_codes (upload_of makefile) offline start)
    as (resp & Hr & _ & Hiff).
  exists resp. split; [exact Hr |].
  apply Hiff. right. left. exists makefile.
  split; [reflexivity | left; vm_compute; reflexivity].
Defined.

(** X12. Without a file part the route answers "A code file is required."
    and does nothing else, even if the prompt is missing too. With a stored
    file and a missing or empty prompt it answers "A review prompt is
    required.", sends no request, runs no query, and still removes the
    stored file. *)
Theorem analyze_route_shape_errors (req : request) (e : env) (s : state) :
  (file_part req = None ->
   analyze_route req e s = (Normal (json_error 400 "A code file is required."), s)) /\
  (forall f,
     fst (uploader req e s) = Normal (UploadDone (Some f)) ->
     truthy (prompt_value (prompt req)) = false ->
     let s' := snd (analyze_route req e s) in
     fst (analyze_route req e s) = Normal (json_error 400 "A review prompt is required.") /\
     fetches s' = fetches s /\ queries s' = queries s /\ reviews s' = reviews s /\
     (unlink_fault e (path f) = None -> uploads s' = delete (path f) (uploads s))).
Proof.
  split; [apply analyze_route_no_file |].
  intros f Hup Hp. cbv zeta.
  rewrite (analyze_route_no_prompt req e s f Hup Hp). cbn [fst snd].
  destruct (uploader_done req e s f Hup) as (file & _ & Hf & _ & _ & Hs0).
  destruct (deleteTempFile_store (path f) e (snd (uploader req e s))) as (Hr & Hfe & _).
  destruct (deleteTempFile_ids (path f) e (snd (uploader req e s))) as (_ & Hq).
  rewrite Hr, Hfe, Hq, Hs0. simpl.
  repeat split.
  intros Hok. rewrite deleteTempFile_spec. simpl uploads.
  assert (Hpath : String.eqb (path f) EmptyString = false) by (rewrite Hf; reflexivity).
  rewrite Hpath, lookup_insert_eq. cbv zeta. rewrite Hok. simpl.
  apply delete_insert_eq.
Qed.

Lemma analyze_route_shape_errors_witness :
  fst (analyze_route (no_prompt small_py) offline start) =
    Normal (json_error 400 "A review prompt is required.") /\
  uploads (snd (analyze_route (no_prompt small_py) offline start)) =
    delete "uploads/3f2a9c" (uploads start).
Proof.
  destruct (analyze_route_shape_errors (no_prompt small_py) offline start) as [_ H].
  destruct (H (stored_as (no_prompt small_py) small_py)) as (Hr & _ & _ & _ & Hu);
    [vm_compute; reflexivity | reflexivity |].
  split; [exact Hr | apply Hu; reflexivity].
Defined.

Lemma analyze_route_success (req : request) (e : env) (s : state) (f : req_file)
  (j : nat) (v : jsval) :
  fst (uploader req e s) = Normal (UploadDone (Some f)) ->
  truthy (prompt_value (prompt req)) = true ->
  key_missing e = false ->
  (j < MAX_RETRIES)%nat ->
  (forall m, (m < j)%nat -> attempt_success (endpoint e (fetches s + m)%nat) = None) ->
  attempt_success (endpoint e (fetches s + j)%nat) = Some v ->
  store_fault e (queries s) = None ->
  let row := recorded req (upload f) v e s in
  let s' := snd (analyze_route req e s) in
  fst (analyze_route req e s) =
    Normal (success_201 row (default EmptyString (prompt req)) v) /\
  reviews s' = <[next_id s := row]> (reviews s) /\
  next_id s' = next_id s + 1 /\
  fetches s' = (fetches s + j + 1)%nat /\
  queries s' = S (queries s).
Proof.
  intros Hup Hp Hkey Hj Hfail Hok Hstore. cbv zeta.
  destruct (analyze_route_accepted req e s f Hup Hp) as (Hf1 & _ & Hf & _ & Hr).
  pose proof (analyze_route_counters req e s f Hup Hp) as Hc.
  cbv zeta in Hr, Hc.
  set (s1 := emit (EvReadFile (path f)) (snd (uploader req e s))) in *.
  set (payload := request_payload f (prompt req)) in *.
  destruct (callGeminiApi_first_success payload e s1 j v Hkey Hj) as (Hg & Hgf & _).
  { intros m Hm. rewrite Hf1. apply Hfail, Hm. }
  { rewrite Hf1. exact Hok. }
  pose proof (callGeminiApi_frame payload e s1) as ((_ & _ & Hnext & Hq) & _ & _).
  destruct (uploader_done req e s f Hup) as (file & _ & _ & _ & _ & Hs0).
  assert (Hrow : created f (default EmptyString (prompt req)) v e
                   (snd (callGeminiApi payload e s1)) =
                 recorded req (upload f) v e s).
  { unfold created, recorded. rewrite Hnext, Hq. subst s1. simpl.
    rewrite Hs0. reflexivity. }
  rewrite Hg, Hstore in Hr. rewrite Hg, Hstore in Hc. rewrite Hrow in Hr.
  destruct Hr as [Hr Hrev]. destruct Hc as [Hqs Hns].
  split; [exact Hr |]. split; [exact Hrev |]. split; [exact Hns |].
  split; [rewrite Hf, Hgf, Hf1; reflexivity | exact Hqs].
Qed.




(** X14. What a successful analysis recorded can be read back: a [GET] on
    the identifier it was given answers 200 with the row, whose report is
    the generated text. *)
Theorem analyze_then_get_round_trip (req : request) (e : env) (s : state)
  (f : req_file) (j : nat) (v : jsval) :
  fst (uploader req e s) = Normal (UploadDone (Some f)) ->
  truthy (prompt_value (prompt req)) = true ->
  key_missing e = false ->
  (j < MAX_RETRIES)%nat ->
  (forall m, (m < j)%nat -> attempt_success (endpoint e (fetches s + m)%nat) = None) ->
  attempt_success (endpoint e (fetches s + j)%nat) = Some v ->
  store_fault e (queries s) = None ->
  store_fault e (S (queries s)) = None ->
  let row := recorded req (upload f) v e s in
  let s' := snd (analyze_route req e s) in
  fst (get_report (next_id s) e s') =
    Normal {| code := 200; body := Some (row_json row) |} /\
  member "report" (row_json row) = v /\
  member "filename" (row_json row) = JStr (originalname (upload f)) /\
  member "review_prompt" (row_json row) = JStr (default EmptyString (prompt req)).
Proof.
  intros Hup Hp Hkey Hj Hfail Hok Hstore Hstore'. cbv zeta.
  destruct (analyze_route_success req e s f j v Hup Hp Hkey Hj Hfail Hok Hstore)
    as (_ & Hrev & _ & _ & Hq).
  cbv zeta in Hrev, Hq.
  split; [| repeat split].
  set (s' := snd (analyze_route req e s)) in *.
  unfold get_report, try_catch, bind, select_review, pool_query.
  rewrite Hq, Hstore'. simpl. rewrite Hrev, lookup_insert_eq. reflexivity.
Qed.

Lemma analyze_then_get_round_trip_witness :
  fst (get_report 1 flaky (snd (analyze_route (upload_of small_py) flaky start))) =
    Normal {| code := 200;
              body := Some (row_json (recorded (upload_of small_py) small_py
                                        (JStr "third time") flaky start)) |}.
Proof.
  destruct (analyze_then_get_round_trip (upload_of small_py) flaky start
              (stored_as (upload_of small_py) small_py) 2 (JStr "third time"))
    as (Hr & _);
    [ vm_compute; reflexivity | reflexivity | reflexivity | unfold MAX_RETRIES; lia
    | intros [| [| m]] Hm; [reflexivity | reflexivity | lia]
    | reflexivity | reflexivity | reflexivity | ].
  exact Hr.
Defined.

Lemma total_wait_sleeps (t1 t2 : list event) :
  sleeps t1 = sleeps t2 -> total_wait t1 = total_wait t2.
Proof. unfold total_wait. intros ->. reflexivity. Qed.

(** X15. One request costs at most 5 calls of the endpoint, 15000 ms of
    waiting and one query; a request answered with 400 costs none of them
    and leaves the table as it is. *)
Theorem analyze_route_budget (req : request) (e : env) (s : state) :
  let s' := snd (analyze_route req e s) in
  (fetches s <= fetches s' <= fetches s + 5)%nat /\
  (queries s <= queries s' <= queries s + 1)%nat /\
  total_wait (trace s) <= total_wait (trace s') <= total_wait (trace s) + 15000 /\
  (forall resp, fst (analyze_route req e s) = Normal resp -> code resp = 400 ->
     fetches s' = fetches s /\ queries s' = queries s /\ reviews s' = reviews s /\
     sleeps (trace s') = sleeps (trace s)).
Proof.
  cbv zeta.
  destruct (fst (uploader req e s)) as [[err | [f |]] | err] eqn:Hup.
  - destruct (analyze_route_rejected req e s err Hup)
      as (file & message & s0 & _ & _ & -> & Hf & Hq & Hr & _ & Hsl).
    cbn [fst snd]. rewrite (total_wait_sleeps _ _ Hsl), Hf, Hq.
    repeat split; trivial; lia.
  - destruct (uploader_done req e s f Hup) as (file & _ & Hf & _ & _ & Hs0).
    destruct (truthy (prompt_value (prompt req))) eqn:Hp.
    + destruct (analyze_route_accepted req e s f Hup Hp) as (Hf1 & Hs1 & Hf' & Hs' & Hr).
      pose proof (analyze_route_counters req e s f Hup Hp) as Hc.
      cbv zeta in Hr, Hc.
      match type of Hf' with
      | _ = fetches (snd (callGeminiApi ?pl e ?st)) =>
          destruct (callGeminiApi_bounds pl e st) as (Hw & Hfb);
          set (g := callGeminiApi pl e st) in *
      end.
      rewrite (total_wait_sleeps _ _ Hs'), Hf'.
      rewrite (total_wait_sleeps _ _ Hs1), Hf1 in *.
      split; [lia |]. split.
      * destruct (fst g); [destruct Hc as [-> _] | destruct Hc as [_ ->]]; lia.
      * split; [lia |]. intros resp Hresp Hcode. exfalso.
        destruct (fst g).
        -- destruct (store_fault e (queries s)); destruct Hr as [Hr _];
             rewrite Hr in Hresp; injection Hresp as <-; discriminate.
        -- destruct Hr as [Hr _]. rewrite Hr in Hresp. injection Hresp as <-.
           discriminate.
    + rewrite (analyze_route_no_prompt req e s f Hup Hp). cbn [fst snd].
      destruct (deleteTempFile_store (path f) e (snd (uploader req e s))) as (Hr & Hfe & Hsl).
      destruct (deleteTempFile_ids (path f) e (snd (uploader req e s))) as (_ & Hq).
      rewrite (total_wait_sleeps _ _ Hsl), Hsl, Hr, Hfe, Hq, Hs0.
      unfold total_wait. simpl. rewrite sleeps_app. simpl. rewrite app_nil_r.
      repeat split; lia.
  - assert (Hnone : file_part req = None).
    { rewrite uploader_spec in Hup. destruct (file_part req) as [file |]; [| reflexivity].
      cbv zeta in Hup. destruct (type_allowed file); [| discriminate].
      destruct (size file <=? fileSize); discriminate. }
    rewrite (analyze_route_no_file req e s Hnone). cbn [fst snd].
    repeat split; lia.
  - exfalso. rewrite uploader_spec in Hup.
    destruct (file_part req) as [file |]; [| discriminate].
    cbv zeta in Hup. destruct (type_allowed file); [| discriminate].
    destruct (size file <=? fileSize); discriminate.
Qed.

Lemma analyze_route_budget_witness :
  fetches (snd (analyze_route (no_prompt small_py) flaky start)) = fetches start /\
  queries (snd (analyze_route (no_prompt small_py) flaky start)) = queries start.
Proof.
  destruct (analyze_route_budget (no_prompt small_py) flaky start) as (_ & _ & _ & H).
  destruct (H (json_error 400 "A review prompt is required.")) as (Hf & Hq & _);
    [vm_compute; reflexivity | reflexivity |].
  split; [exact Hf | exact Hq].
Defined.

(** What a request leaves of the table when it does not answer 201. *)
Lemma analyze_route_table (req : request) (e : env) (s : state) :
  let s' := snd (analyze_route req e s) in
  (exists row generated,
     fst (analyze_route req e s) =
       Normal (success_201 row (default EmptyString (prompt req)) generated) /\
     reviews s' = <[next_id s := row]> (reviews s) /\
     next_id s' = next_id s + 1 /\ id row = next_id s /\ report row = generated) \/
  (exists resp,
     fst (analyze_route req e s) = Normal resp /\ code resp <> 201 /\
     reviews s' = reviews s /\ next_id s' = next_id s).
Proof.
  cbv zeta.
  destruct (fst (uploader req e s)) as [[err | [f |]] | err] eqn:Hup.
  - destruct (analyze_route_rejected req e s err Hup)
      as (file & message & s0 & _ & _ & -> & _ & _ & Hr & Hn & _).
    right. eexists. split; [reflexivity |]. split; [discriminate |].
    split; [exact Hr | exact Hn].
  - destruct (uploader_done req e s f Hup) as (file & _ & Hf & _ & _ & Hs0).
    destruct (truthy (prompt_value (prompt req))) eqn:Hp.
    + destruct (analyze_route_accepted req e s f Hup Hp) as (_ & _ & _ & _ & Hr).
      pose proof (analyze_route_counters req e s f Hup Hp) as Hc.
      cbv zeta in Hr, Hc.
      match type of Hc with
      | context [callGeminiApi ?pl e ?st] =>
          pose proof (callGeminiApi_frame pl e st) as ((_ & _ & Hnx & _) & _ & _);
          set (g := callGeminiApi pl e st) in *
      end.
      destruct (fst g) as [generated | err].
      * destruct (store_fault e (queries s)).
        -- right. destruct Hr as [Hr Hrev]. destruct Hc as [_ Hn].
           exists generic_500. repeat split; trivial. discriminate.
        -- left. destruct Hr as [Hr Hrev]. destruct Hc as [_ Hn].
           eexists _, generated.
           split; [exact Hr |]. split; [exact Hrev |]. split; [exact Hn |].
           split; [| reflexivity].
           unfold created. simpl. rewrite Hnx. simpl. rewrite Hs0. reflexivity.
      * right. destruct Hr as [Hr Hrev]. destruct Hc as [Hn _].
        exists generic_500. repeat split; trivial. discriminate.
    + rewrite (analyze_route_no_prompt req e s f Hup Hp). cbn [fst snd].
      destruct (deleteTempFile_store (path f) e (snd (uploader req e s))) as (Hr & _ & _).
      destruct (deleteTempFile_ids (path f) e (snd (uploader req e s))) as (Hn & _).
      right. eexists. split; [reflexivity |]. split; [discriminate |].
      rewrite Hr, Hn, Hs0. split; reflexivity.
  - assert (Hnone : file_part req = None).
    { rewrite uploader_spec in Hup. destruct (file_part req) as [file |]; [| reflexivity].
      cbv zeta in Hup. destruct (type_allowed file); [| discriminate].
      destruct (size file <=? fileSize); discriminate. }
    rewrite (analyze_route_no_file req e s Hnone).
    right. eexists. repeat split. discriminate.
  - exfalso. rewrite uploader_spec in Hup.
    destruct (file_part req) as [file |]; [| discriminate].
    cbv zeta in Hup. destruct (type_allowed file); [| discriminate].
    destruct (size file <=? fileSize); discriminate.
Qed.

(** X16. If the identifiers not yet handed out are free, they still are
    after a request; no existing row is changed or lost; a 201 adds exactly
    one row, and any other answer leaves the table as it is. *)
Theorem analyze_route_one_record_per_success (req : request) (e : env) (s : state) :
  fresh_ids s ->
  let s' := snd (analyze_route req e s) in
  fresh_ids s' /\
  (forall k row, reviews s !! k = Some row -> reviews s' !! k = Some row) /\
  exists resp,
    fst (analyze_route req e s) = Normal resp /\
    (code resp = 201 ->
     stdpp.base.size (reviews s') = S (stdpp.base.size (reviews s))) /\
    (code resp <> 201 -> reviews s' = reviews s).
Proof.
  intros Hfresh. cbv zeta.
  destruct (analyze_route_table req e s)
    as [(row & generated & Hr & Hrev & Hn & _) | (resp & Hr & Hcode & Hrev & Hn)].
  - assert (Hfree : reviews s !! next_id s = None) by (apply Hfresh; lia).
    split; [| split].
    + intros k Hk. rewrite Hrev, Hn in *.
      rewrite lookup_insert_ne by lia. apply Hfresh. lia.
    + intros k old Hold. rewrite Hrev, lookup_insert_ne; [exact Hold |].
      intros <-. congruence.
    + eexists. split; [exact Hr |]. split.
      * intros _. rewrite Hrev. apply map_size_insert_None. exact Hfree.
      * intros Hne. exfalso. apply Hne. reflexivity.
  - split; [| split].
    + intros k Hk. rewrite Hrev. apply Hfresh. rewrite <- Hn. exact Hk.
    + intros k old Hold. rewrite Hrev. exact Hold.
    + exists resp. split; [exact Hr |]. split; [intros H; congruence | intros _; exact Hrev].
Qed.

Lemma analyze_route_one_record_per_success_witness :
  fresh_ids (snd (analyze_route (upload_of small_py) flaky start)).
Proof.
  apply (analyze_route_one_record_per_success (upload_of small_py) flaky start).
  intros k _. apply lookup_empty.
Defined.


(** X18. When the query of [DELETE /api/reports/:id] fails, the answer is
    500 with a fixed message, nothing is deleted, and the cause goes to the
    console. *)
Theorem delete_report_failure_deletes_nothing (key : Z) (e : env) (s : state)
  (message : string) :
  store_fault e (queries s) = Some message ->
  let s' := snd (delete_report key e s) in
  fst (delete_report key e s) = Normal (json_error 500 "Failed to delete the report.") /\
  reviews s' = reviews s /\ next_id s' = next_id s /\ uploads s' = uploads s /\
  In (EvLog (LogReportError key (Foreign message))) (trace s').
Proof.
  intros Hfault. cbv zeta.
  unfold delete_report, try_catch, bind, delete_review, pool_query.
  rewrite Hfault. simpl. repeat split. apply in_or_app. right. left. reflexivity.
Qed.

Lemma delete_report_failure_deletes_nothing_witness :
  fst (delete_report 1 store_down one_review) =
    Normal (json_error 500 "Failed to delete the report.") /\
  reviews (snd (delete_report 1 store_down one_review)) = reviews one_review.
Proof.
  destruct (delete_report_failure_deletes_nothing 1 store_down one_review "connection refused")
    as (Hr & Hrev & _); [reflexivity |].
  split; [exact Hr | exact Hrev].
Defined.

(** X19. Deleting the same identifier a second time answers 404 and changes
    nothing, whether or not the first delete found a row; a delete keeps the
    identifiers not yet handed out free. *)
Theorem delete_report_twice (key : Z) (e : env) (s : state) :
  store_fault e (queries s) = None ->
  store_fault e (S (queries s)) = None ->
  let s1 := snd (delete_report key e s) in
  fst (delete_report key e s1) = Normal (not_found key) /\
  reviews (snd (delete_report key e s1)) = reviews s1 /\
  (fresh_ids s -> fresh_ids s1).
Proof.
  intros H0 H1. cbv zeta.
  assert (Hs1 : reviews (snd (delete_report key e s)) = delete key (reviews s) /\
                queries (snd (delete_report key e s)) = S (queries s) /\
                next_id (snd (delete_report key e s)) = next_id s).
  { unfold delete_report, try_catch, bind, delete_review, pool_query.
    rewrite H0. simpl. destruct (reviews s !! key); simpl; repeat split. }
  destruct Hs1 as (Hrev & Hq & Hn).
  set (s1 := snd (delete_report key e s)) in *.
  assert (Hgone : reviews s1 !! key = None) by (rewrite Hrev; apply lookup_delete_eq).
  split; [| split].
  - unfold delete_report, try_catch, bind, delete_review, pool_query.
    rewrite Hq, H1. simpl. rewrite Hgone. reflexivity.
  - unfold delete_report, try_catch, bind, delete_review, pool_query.
    rewrite Hq, H1. simpl. rewrite Hgone. simpl. apply delete_id. exact Hgone.
  - intros Hfresh k Hk. rewrite Hrev. rewrite Hn in Hk.
    destruct (decide (key = k)) as [-> | Hne];
      [apply lookup_delete_eq | rewrite lookup_delete_ne by exact Hne; apply Hfresh, Hk].
Qed.

Lemma delete_report_twice_witness :
  fst (delete_report 1 offline (snd (delete_report 1 offline one_review))) =
    Normal (not_found 1).
Proof.
  destruct (delete_report_twice 1 offline one_review) as (Hr & _);
    [reflexivity | reflexivity |].
  exact Hr.
Defined.



(** A detail that cannot be printed: the template literal of the last
    attempt raises a [TypeError], which the same attempt's [catch] logs and
    rethrows. *)
Example unprintable_detail_raises_type_error :
  fst (callGeminiApi some_payload unprintable_503 start) =
    Throw (TypeError "Cannot convert object to primitive value") /\
  fetches (snd (callGeminiApi some_payload unprintable_503 start)) = 5%nat.
Proof.
  split; vm_compute; reflexivity.
Qed.

(** Lower-casing goes by code point: the letters of ASCII, the Kelvin sign
    U+212A, the capital I with dot above U+0130, and a Greek word with an
    accented Latin letter after it, whose last sigma takes its final
    form. *)
Example toLowerCase_samples :
  toLowerCase "Main.PY" = "main.py" /\
  toLowerCase kelvin = "k" /\
  toLowerCase (utf8 [196; 176]) = utf8 [105; 204; 135] /\
  toLowerCase (utf8 [206; 159; 206; 148; 206; 159; 206; 163; 32; 195; 137]) =
    utf8 [206; 191; 206; 180; 206; 191; 207; 130; 32; 195; 169].
Proof.
  repeat split; vm_compute; reflexivity.
Qed.

(** The Kelvin sign lower-cases to the letter k, so [.Kt] written with it
    is the Kotlin extension. *)
Example kelvin_extension_is_kotlin :
  toLowerCase (extname (originalname kelvin_kt)) = ".kt" /\
  includes allowedMimeTypes (mimetype kelvin_kt) = false /\
  type_allowed kelvin_kt = true.
Proof.
  repeat split; vm_compute; reflexivity.
Qed.

(** An oversized upload: multer writes up to the limit, removes what it
    wrote and reports the error; the handler never runs. *)
Example oversized_upload_is_removed_by_multer :
  fst (analyze_route (upload_of huge_py) offline start) =
    Normal (json_error 400 "File upload error: File too large") /\
  trace (snd (analyze_route (upload_of huge_py) offline start)) =
    [EvLog (LogReceived "big.py" "text/x-python"); EvUnlink "uploads/3f2a9c"] /\
  uploads (snd (analyze_route (upload_of huge_py) offline start)) !! "uploads/3f2a9c" = None.
Proof.
  repeat split; vm_compute; reflexivity.
Qed.
